(** * iso-19139-to-dcat-ap: the XSLTTransformer example script

    A shallow embedding of [documentation/examples/py/iso-19139-to-dcat-ap.py]:
    the class [XSLTTransformer] with its constructor [__init__] and its method
    [transform].

    The script talks to collaborators whose code is not part of the repository:
    the file system, the network ([urlretrieve]), the [tempfile] module, the
    UTF-8 codec and the SaxonC engine.  They are gathered in the record [Env];
    every definition and theorem is parametric in it.  The file system is a
    finite map from paths to contents on which writes always succeed; what can
    raise is what the script itself decides ([FileNotFoundError],
    [RuntimeError]), what Python decides (a local read before its assignment,
    [write] on a value that is not text) and what the collaborators report
    (decoding, download, engine).  Every observable effect is appended to a
    chronological trace. *)

From Stdlib Require Import String Ascii List.
From stdpp Require Import base option gmap strings list.

Local Open Scope string_scope.

(** ** Python values and exceptions *)

Inductive exn_class :=
  | FileNotFoundError
  | UnicodeDecodeError
  | UnboundLocalError
  | RuntimeError
  | TypeError
  | URLError
  | PySaxonApiError.

(** An exception instance: its class and [str(e)]. *)
Record exn := Exn { exn_type : exn_class; exn_str : string }.

(** The values that [xml_data] and [result] range over. *)
Inductive pyval :=
  | PyNone
  | PyStr (s : string)
  | PyBytes (b : list Byte.byte).

Definition of_optional (o : option string) : pyval :=
  match o with Some s => PyStr s | None => PyNone end.

Definition nl : string := String (ascii_of_nat 10) EmptyString.

(** ** os.path *)

Definition chars (s : string) : list ascii := list_ascii_of_string s.
Definition text (l : list ascii) : string := string_of_list_ascii l.

Definition is_sep (c : ascii) : bool := Ascii.eqb c "/"%char.

Fixpoint lstrip (p : ascii → bool) (l : list ascii) : list ascii :=
  match l with
  | [] => []
  | c :: l' => if p c then lstrip p l' else l
  end.

(** [str.startswith] and [str.endswith]. *)
Definition startswith (s pre : string) : bool := String.prefix pre s.

Definition endswith_sep (s : string) : bool :=
  match rev (chars s) with
  | c :: _ => is_sep c
  | [] => false
  end.

(** [os.path.join(a, b)] of posixpath. *)
Definition path_join (a b : string) : string :=
  if startswith b "/" then b
  else if (String.eqb a "" || endswith_sep a)%bool then a +:+ b
  else a +:+ "/" +:+ b.

(** [os.path.dirname(p)] of posixpath: the head up to the last separator,
    without its trailing separators unless it consists of separators only. *)
Definition dirname (p : string) : string :=
  let head_rev := lstrip (λ c, negb (is_sep c)) (rev (chars p)) in
  if forallb is_sep head_rev then text (rev head_rev)
  else text (rev (lstrip is_sep head_rev)).

(** [s[:n]] on text. *)
Fixpoint slice_to (n : nat) (s : string) : string :=
  match n, s with
  | S n', String c s' => String c (slice_to n' s')
  | _, _ => EmptyString
  end.

(** ** SaxonC objects *)

Inductive XdmValue := XdmBoolean (b : bool).

Record PySaxonProcessor := { license : bool }.

Definition make_boolean_value (_ : PySaxonProcessor) (b : bool) : XdmValue :=
  XdmBoolean b.

(** An [Xslt30Processor] handle: its stylesheet parameters, its working
    directory, and what the latest transformation left behind for
    [exception_occurred] and [get_error_message()]. *)
Record Xslt30Processor := {
  parameters : gmap string XdmValue;
  cwd : option string;
  exception_occurred : bool;
  error_message : list string
}.

Definition new_xslt30_processor (_ : PySaxonProcessor) : Xslt30Processor :=
  {| parameters := ∅; cwd := None;
     exception_occurred := false; error_message := [] |}.

Definition set_parameter (name : string) (v : XdmValue) (xp : Xslt30Processor)
  : Xslt30Processor :=
  {| parameters := <[name := v]> (parameters xp); cwd := cwd xp;
     exception_occurred := exception_occurred xp;
     error_message := error_message xp |}.

Definition set_cwd (d : string) (xp : Xslt30Processor) : Xslt30Processor :=
  {| parameters := parameters xp; cwd := Some d;
     exception_occurred := exception_occurred xp;
     error_message := error_message xp |}.

(** What one run of the engine reports when it returns to Python. *)
Record saxon_run := {
  run_result : option string;
  run_exception : bool;
  run_errors : list string
}.

(** ** The class attributes *)

Record XSLTTransformer := {
  xslt_path : string;
  processor : PySaxonProcessor;
  xslt_processor : Xslt30Processor
}.

(** ** The world outside the script *)

Inductive level := DEBUG | ERROR.

Inductive event :=
  | Log (lvl : level) (msg : string)
  | Urlretrieve (url path : string)
  | Makedirs (path : string)
  | OpenW (path : string)
  | WriteFile (path data : string)
  | TransformToString (params : gmap string XdmValue) (wd : option string)
                      (stylesheet_file source_file : string).

Record World := {
  files : gmap string string;
  dirs : gset string;
  temp_seq : nat;
  trace : list event
}.

(** The collaborators.  [saxon] is a function of the processor's
    configuration, the files it can read and the two file names: the engine is
    deterministic. *)
Record Env := {
  script_dir : string;
  abspath : string → string;
  utf8_decode : list Byte.byte → exn + string;
  repr_bytes : list Byte.byte → string;
  remote : string → exn + string;
  temp_stem : nat → string;
  saxon : gmap string XdmValue → option string → gmap string string →
          string → string → exn + saxon_run
}.

(** ** A state and exception monad

    A computation runs on a state and either raises or returns; the state
    reached is kept in both cases, as a Python statement that raises keeps the
    assignments and the effects made before. *)

Definition M (S A : Type) : Type := S → (exn + A) * S.

#[global] Instance M_ret {S} : MRet (M S) := λ A x s, (inr x, s).

#[global] Instance M_bind {S} : MBind (M S) := λ A B f m s,
  match m s with
  | (inr x, s') => f x s'
  | (inl e, s') => (inl e, s')
  end.

Definition raise {S A} (e : exn) : M S A := λ s, (inl e, s).

Definition gets {S A} (f : S → A) : M S A := λ s, (inr (f s), s).

Definition modify {S} (f : S → S) : M S unit := λ s, (inr tt, f s).

Definition lift_result {S A} (r : exn + A) : M S A :=
  match r with
  | inl e => raise e
  | inr x => mret x
  end.

(** [try: body except Exception as e: handler e]. *)
Definition try_except {S A} (body : M S A) (handler : exn → M S A) : M S A :=
  λ s, match body s with
       | (inl e, s') => handler e s'
       | (inr x, s') => (inr x, s')
       end.

(** [for x in l: f x]. *)
Fixpoint for_each {S A} (l : list A) (f : A → M S unit) : M S unit :=
  match l with
  | [] => mret tt
  | x :: l' => f x ;; for_each l' f
  end.

(** ** Operations on the world *)

Definition with_files (f : gmap string string → gmap string string) (w : World)
  : World :=
  {| files := f (files w); dirs := dirs w; temp_seq := temp_seq w;
     trace := trace w |}.

Definition with_event (ev : event) (w : World) : World :=
  {| files := files w; dirs := dirs w; temp_seq := temp_seq w;
     trace := trace w ++ [ev] |}.

Definition emit (ev : event) : M World unit := modify (with_event ev).

Definition log_debug (msg : string) : M World unit := emit (Log DEBUG msg).
Definition log_error (msg : string) : M World unit := emit (Log ERROR msg).

(** [os.path.isfile]. *)
Definition isfile (p : string) : M World bool :=
  gets (λ w, match files w !! p with Some _ => true | None => false end).

(** [os.makedirs(p, exist_ok=True)]. *)
Definition makedirs (p : string) : M World unit :=
  emit (Makedirs p) ;;
  modify (λ w, {| files := files w; dirs := {[p]} ∪ dirs w;
                  temp_seq := temp_seq w; trace := trace w |}).

(** [open(p, 'w', encoding='utf-8')]: the file is created or emptied. *)
Definition open_w (p : string) : M World unit :=
  emit (OpenW p) ;;
  modify (with_files <[p := ""]>).

(** [f.write(v)] on a file opened in text mode: only text is accepted, and it
    is appended to what the file holds. *)
Definition file_write (p : string) (v : pyval) : M World unit :=
  match v with
  | PyStr s =>
      emit (WriteFile p s) ;;
      modify (with_files (λ fs, <[p := default "" (fs !! p) +:+ s]> fs))
  | PyNone => raise (Exn TypeError "write() argument must be str, not None")
  | PyBytes _ => raise (Exn TypeError "write() argument must be str, not bytes")
  end.

Section Script.

Context (env : Env).

(** [urllib.request.urlretrieve(url, p)]. *)
Definition urlretrieve (url p : string) : M World unit :=
  emit (Urlretrieve url p) ;;
  c ← lift_result (remote env url);
  modify (with_files <[p := c]>).

(** [tempfile.NamedTemporaryFile(delete=False, suffix=..., mode='w')]:
    a new file whose name ends with the suffix; returns [temp_file.name]. *)
Definition named_temporary_file (suffix : string) : M World string :=
  n ← gets temp_seq;
  let name := temp_stem env n +:+ suffix in
  modify (λ w, {| files := files w; dirs := dirs w; temp_seq := S n;
                  trace := trace w |}) ;;
  open_w name ;;
  mret name.

(** ** Module level *)

Definition LOCAL_XSL_PATH : string :=
  path_join (script_dir env) "iso19139-to-geodcatap.xsl".

(** ** XSLTTransformer.__init__ *)

Definition is_url (xslt_file : string) : bool :=
  (startswith xslt_file "http://" || startswith xslt_file "https://")%bool.

Definition init (xslt_file : string) : M World XSLTTransformer :=
  log_debug ("Initializing XSLTTransformer with xslt_file: " +:+ xslt_file) ;;
  self_xslt_path ←
    (if is_url xslt_file then
       let self_xslt_path := LOCAL_XSL_PATH in
       present ← isfile self_xslt_path;
       (if negb present then
          log_debug ("Downloading XSLT file from URL: " +:+ xslt_file) ;;
          urlretrieve xslt_file self_xslt_path
        else mret tt) ;;
       mret self_xslt_path
     else
       present ← isfile xslt_file;
       (if negb present then
          raise (Exn FileNotFoundError
                     ("The file " +:+ xslt_file +:+ " does not exist."))
        else mret tt) ;;
       mret (abspath env xslt_file));
  let self_processor := {| license := false |} in
  let self_xslt_processor := new_xslt30_processor self_processor in
  log_debug "XSLTTransformer initialized successfully." ;;
  mret {| xslt_path := self_xslt_path; processor := self_processor;
          xslt_processor := self_xslt_processor |}.

(** ** XSLTTransformer.transform *)

(** The frame of one call: [self], the locals that the handler reads, and the
    world.  [local_output_dir] is [None] until line 67 has run. *)
Record Frame := {
  self : XSLTTransformer;
  local_xml_data : pyval;
  local_output_dir : option string;
  world : World
}.

Definition in_world {A} (m : M World A) : M Frame A :=
  λ fr, let '(r, w) := m (world fr) in
        (r, {| self := self fr; local_xml_data := local_xml_data fr;
               local_output_dir := local_output_dir fr; world := w |}).

Definition assign_xml_data (v : pyval) : M Frame unit :=
  modify (λ fr, {| self := self fr; local_xml_data := v;
                   local_output_dir := local_output_dir fr;
                   world := world fr |}).

Definition assign_output_dir (d : string) : M Frame unit :=
  modify (λ fr, {| self := self fr; local_xml_data := local_xml_data fr;
                   local_output_dir := Some d; world := world fr |}).

Definition assign_self (f : XSLTTransformer → XSLTTransformer) : M Frame unit :=
  modify (λ fr, {| self := f (self fr); local_xml_data := local_xml_data fr;
                   local_output_dir := local_output_dir fr;
                   world := world fr |}).

Definition assign_processor (p : PySaxonProcessor) : M Frame unit :=
  assign_self (λ t, {| xslt_path := xslt_path t; processor := p;
                       xslt_processor := xslt_processor t |}).

Definition assign_xslt_processor (xp : Xslt30Processor) : M Frame unit :=
  assign_self (λ t, {| xslt_path := xslt_path t; processor := processor t;
                       xslt_processor := xp |}).

(** Reading the local [output_dir]. *)
Definition load_output_dir : M Frame string :=
  o ← gets local_output_dir;
  match o with
  | Some d => mret d
  | None =>
      raise (Exn UnboundLocalError
        "cannot access local variable 'output_dir' where it is not associated with a value")
  end.

(** [self.xslt_processor.set_parameter(...)], [set_cwd(...)]. *)
Definition on_xslt_processor (f : Xslt30Processor → Xslt30Processor)
  : M Frame unit :=
  xp ← gets (λ fr, xslt_processor (self fr));
  assign_xslt_processor (f xp).

(** [self.xslt_processor.transform_to_string(stylesheet_file=, source_file=)]. *)
Definition transform_to_string (stylesheet_file source_file : string)
  : M Frame pyval :=
  xp ← gets (λ fr, xslt_processor (self fr));
  in_world (emit (TransformToString (parameters xp) (cwd xp)
                                    stylesheet_file source_file)) ;;
  fs ← gets (λ fr, files (world fr));
  run ← lift_result
          (saxon env (parameters xp) (cwd xp) fs stylesheet_file source_file);
  assign_xslt_processor
    {| parameters := parameters xp; cwd := cwd xp;
       exception_occurred := run_exception run;
       error_message := run_errors run |} ;;
  mret (of_optional (run_result run)).

(** Lines 63 to 73: decode, create the output directory, save the input.
    Returns [output_dir]. *)
Definition prepare : M Frame string :=
  xml_data ← gets local_xml_data;
  match xml_data with
  | PyBytes b =>
      s ← lift_result (utf8_decode env b);
      assign_xml_data (PyStr s)
  | _ => mret tt
  end ;;
  let output_dir := path_join (script_dir env) "output" in
  assign_output_dir output_dir ;;
  in_world (makedirs output_dir) ;;
  let xml_file_path := path_join output_dir "input_raw.xml" in
  in_world (open_w xml_file_path) ;;
  xml_data ← gets local_xml_data;
  in_world (file_write xml_file_path xml_data) ;;
  mret output_dir.

(** Lines 76 to 81: a new processor, its parameter and its directory. *)
Definition configure : M Frame unit :=
  assign_processor {| license := false |} ;;
  p ← gets (λ fr, processor (self fr));
  assign_xslt_processor (new_xslt30_processor p) ;;
  on_xslt_processor
    (set_parameter "resolve-external" (make_boolean_value p false)) ;;
  path ← gets (λ fr, xslt_path (self fr));
  on_xslt_processor (set_cwd (dirname path)).

(** Lines 84 to 89: the temporary source file.  Returns [temp_file_path]. *)
Definition stage_source : M Frame string :=
  temp_file_path ← in_world (named_temporary_file ".xml");
  xml_data ← gets local_xml_data;
  in_world (file_write temp_file_path xml_data) ;;
  path ← gets (λ fr, xslt_path (self fr));
  in_world (log_debug ("Starting XSLT transformation with:" +:+ nl +:+
                       "  Source: " +:+ temp_file_path +:+ nl +:+
                       "  XSLT: " +:+ path)) ;;
  mret temp_file_path.

(** Lines 91 to 102: the engine is run, the parameter is set again, the
    engine is run again.  Returns the second [result]. *)
Definition execute (temp_file_path : string) : M Frame pyval :=
  path ← gets (λ fr, xslt_path (self fr));
  _ ← transform_to_string path temp_file_path;
  p ← gets (λ fr, processor (self fr));
  on_xslt_processor
    (set_parameter "resolve-external" (make_boolean_value p false)) ;;
  transform_to_string path temp_file_path.

(** Lines 104 to 115: the check of the engine's report, the output file. *)
Definition check_and_save (output_dir : string) (result : pyval)
  : M Frame pyval :=
  xp ← gets (λ fr, xslt_processor (self fr));
  (if exception_occurred xp then
     for_each (error_message xp)
       (λ error, in_world
                   (log_error ("Error in XSLT transformation: " +:+ error))) ;;
     raise (Exn RuntimeError "Error in XSLT transformation")
   else mret tt) ;;
  let output_file_path := path_join output_dir "transformed_output.rdf" in
  in_world (open_w output_file_path) ;;
  in_world (file_write output_file_path result) ;;
  in_world (log_debug
    ("XML transformation completed successfully. Result saved in " +:+
     output_file_path)) ;;
  mret result.

Definition transform_try : M Frame pyval :=
  output_dir ← prepare;
  configure ;;
  temp_file_path ← stage_source;
  result ← execute temp_file_path;
  check_and_save output_dir result.

(** The text that [f"{xml_data[:1000]}"] formats. *)
Definition preview (xml_data : pyval) : M Frame string :=
  match xml_data with
  | PyStr s => mret (slice_to 1000 s)
  | PyBytes b => mret (repr_bytes env (take 1000 b))
  | PyNone => raise (Exn TypeError "'NoneType' object is not subscriptable")
  end.

(** Lines 117 to 124: the handler. *)
Definition transform_except (e : exn) : M Frame pyval :=
  in_world (log_error ("Failed to transform XML content: " +:+ exn_str e)) ;;
  output_dir ← load_output_dir;
  let error_path := path_join output_dir "transformation_error.log" in
  in_world (open_w error_path) ;;
  in_world (file_write error_path (PyStr ("Error: " +:+ exn_str e +:+ nl))) ;;
  xml_data ← gets local_xml_data;
  shown ← preview xml_data;
  in_world (file_write error_path
              (PyStr ("XML content preview:" +:+ nl +:+ shown +:+ "..."))) ;;
  raise e.

Definition call {A} (body : M Frame A) (t : XSLTTransformer) (xml_data : pyval)
    (w : World) : (exn + A) * XSLTTransformer * World :=
  let '(r, fr) := body {| self := t; local_xml_data := xml_data;
                          local_output_dir := None; world := w |} in
  (r, self fr, world fr).

Definition transform : XSLTTransformer → pyval → World →
                       (exn + pyval) * XSLTTransformer * World :=
  call (in_world (log_debug "Starting XML transformation.") ;;
        try_except transform_try transform_except).

End Script.

(** ** The single-run variant

    The transformation as the design notes ask for it: the stages of
    [transform], with the engine run exactly once. *)

Section Single.

Context (env : Env).

Definition execute_once (temp_file_path : string) : M Frame pyval :=
  path ← gets (λ fr, xslt_path (self fr));
  transform_to_string env path temp_file_path.

Definition transform_try_once : M Frame pyval :=
  output_dir ← prepare env;
  configure ;;
  temp_file_path ← stage_source env;
  result ← execute_once temp_file_path;
  check_and_save output_dir result.

Definition transform_once : XSLTTransformer → pyval → World →
                            (exn + pyval) * XSLTTransformer * World :=
  call (in_world (log_debug "Starting XML transformation.") ;;
        try_except transform_try_once (transform_except env)).

End Single.

(** ** Observations *)

Definition outcome {A} (res : (exn + A) * XSLTTransformer * World) : exn + A :=
  res.1.1.

Definition final_self {A} (res : (exn + A) * XSLTTransformer * World)
  : XSLTTransformer := res.1.2.

Definition final_world {A} (res : (exn + A) * XSLTTransformer * World)
  : World := res.2.

(** The events that happened between two worlds. *)
Definition since (w w' : World) : list event :=
  drop (length (trace w)) (trace w').

(** The files opened for writing, the URLs fetched, the runs of the engine. *)
Definition opened (evs : list event) : list string :=
  omap (λ ev, match ev with OpenW p => Some p | _ => None end) evs.

Definition fetched (evs : list event) : list string :=
  omap (λ ev, match ev with Urlretrieve url _ => Some url | _ => None end) evs.

Definition is_engine_run (ev : event) : bool :=
  match ev with TransformToString _ _ _ _ => true | _ => false end.

Definition engine_runs (evs : list event) : list event :=
  List.filter is_engine_run evs.

Definition other_events (evs : list event) : list event :=
  List.filter (λ ev, negb (is_engine_run ev)) evs.

Definition last_char (s : string) : option ascii := head (rev (chars s)).

Definition logged (evs : list event) : list (level * string) :=
  omap (λ ev, match ev with Log l m => Some (l, m) | _ => None end) evs.

Section Paths.

Context (env : Env).

Definition output_dir_path : string := path_join (script_dir env) "output".

Definition input_raw_path : string :=
  path_join output_dir_path "input_raw.xml".

Definition output_path : string :=
  path_join output_dir_path "transformed_output.rdf".

Definition error_path : string :=
  path_join output_dir_path "transformation_error.log".

Definition temp_file_path (w : World) : string :=
  temp_stem env (temp_seq w) +:+ ".xml".

(** The text that [transform] works on, when its argument has one. *)
Definition input_text (x : pyval) : option string :=
  match x with
  | PyStr s => Some s
  | PyBytes b =>
      match utf8_decode env b with inr s => Some s | inl _ => None end
  | PyNone => None
  end.

Definition resolve_external : gmap string XdmValue :=
  <["resolve-external" := XdmBoolean false]> ∅.

(** The files on disk when the engine runs. *)
Definition staged (s : string) (w : World) : gmap string string :=
  <[temp_file_path w := s]> (<[input_raw_path := s]> (files w)).

(** What the engine answers in the call on text [s] from world [w]. *)
Definition engine_answer (t : XSLTTransformer) (s : string) (w : World)
  : exn + saxon_run :=
  saxon env resolve_external (Some (dirname (xslt_path t))) (staged s w)
    (xslt_path t) (temp_file_path w).

Definition engine_event (t : XSLTTransformer) (w : World) : event :=
  TransformToString resolve_external (Some (dirname (xslt_path t)))
    (xslt_path t) (temp_file_path w).

Definition staging_events (t : XSLTTransformer) (s : string) (w : World)
  : list event :=
  [ Log DEBUG "Starting XML transformation.";
    Makedirs output_dir_path;
    OpenW input_raw_path; WriteFile input_raw_path s;
    OpenW (temp_file_path w); WriteFile (temp_file_path w) s;
    Log DEBUG ("Starting XSLT transformation with:" +:+ nl +:+
               "  Source: " +:+ temp_file_path w +:+ nl +:+
               "  XSLT: " +:+ xslt_path t) ].

Definition error_head (e : exn) : string := "Error: " +:+ exn_str e +:+ nl.

Definition error_tail (s : string) : string :=
  "XML content preview:" +:+ nl +:+ slice_to 1000 s +:+ "...".

Definition failure_events (e : exn) (s : string) : list event :=
  [ Log ERROR ("Failed to transform XML content: " +:+ exn_str e);
    OpenW error_path;
    WriteFile error_path (error_head e);
    WriteFile error_path (error_tail s) ].

Definition success_events (r : string) : list event :=
  [ OpenW output_path; WriteFile output_path r;
    Log DEBUG ("XML transformation completed successfully. Result saved in "
               +:+ output_path) ].

Definition engine_error_log (msgs : list string) : list event :=
  (λ m, Log ERROR ("Error in XSLT transformation: " +:+ m)) <$> msgs.

(** [self] once lines 76 to 81 have run, with the engine's latest report. *)
Definition configured (t : XSLTTransformer) (flag : bool) (msgs : list string)
  : XSLTTransformer :=
  {| xslt_path := xslt_path t; processor := {| license := false |};
     xslt_processor :=
       {| parameters := resolve_external;
          cwd := Some (dirname (xslt_path t));
          exception_occurred := flag; error_message := msgs |} |}.

Definition unbound_output_dir : exn :=
  Exn UnboundLocalError
    "cannot access local variable 'output_dir' where it is not associated with a value".

Definition engine_failed : exn := Exn RuntimeError "Error in XSLT transformation".

Definition not_text : exn :=
  Exn TypeError "write() argument must be str, not None".

Definition not_subscriptable : exn :=
  Exn TypeError "'NoneType' object is not subscriptable".

Definition later (w : World) (fs : gmap string string) (made : bool)
    (temps : nat) (evs : list event) : World :=
  {| files := fs;
     dirs := if made then {[output_dir_path]} ∪ dirs w else dirs w;
     temp_seq := temp_seq w + temps;
     trace := trace w ++ evs |}.

(** The six ways through a call.  [runs] is the number of engine runs that
    the variant makes when the first one returns. *)
Inductive path (runs : nat) (t : XSLTTransformer) (w : World)
  : pyval → (exn + pyval) * XSLTTransformer * World → Prop :=
  | path_none :
      path runs t w PyNone
        (inl not_subscriptable, t,
         later w (<[error_path := error_head not_text]>
                    (<[input_raw_path := ""]> (files w))) true 0
           [ Log DEBUG "Starting XML transformation.";
             Makedirs output_dir_path; OpenW input_raw_path;
             Log ERROR ("Failed to transform XML content: " +:+
                        exn_str not_text);
             OpenW error_path; WriteFile error_path (error_head not_text) ])
  | path_undecodable b e :
      utf8_decode env b = inl e →
      path runs t w (PyBytes b)
        (inl unbound_output_dir, t,
         later w (files w) false 0
           [ Log DEBUG "Starting XML transformation.";
             Log ERROR ("Failed to transform XML content: " +:+ exn_str e) ])
  | path_raised x s e :
      input_text x = Some s →
      engine_answer t s w = inl e →
      path runs t w x
        (inl e, configured t false [],
         later w (<[error_path := error_head e +:+ error_tail s]> (staged s w))
           true 1
           (staging_events t s w ++ [engine_event t w] ++ failure_events e s))
  | path_reported x s run :
      input_text x = Some s →
      engine_answer t s w = inr run →
      run_exception run = true →
      path runs t w x
        (inl engine_failed, configured t true (run_errors run),
         later w (<[error_path := error_head engine_failed +:+ error_tail s]>
                    (staged s w)) true 1
           (staging_events t s w ++ replicate runs (engine_event t w) ++
            engine_error_log (run_errors run) ++
            failure_events engine_failed s))
  | path_no_result x s run :
      input_text x = Some s →
      engine_answer t s w = inr run →
      run_exception run = false →
      run_result run = None →
      path runs t w x
        (inl not_text, configured t false (run_errors run),
         later w (<[error_path := error_head not_text +:+ error_tail s]>
                    (<[output_path := ""]> (staged s w))) true 1
           (staging_events t s w ++ replicate runs (engine_event t w) ++
            [OpenW output_path] ++ failure_events not_text s))
  | path_success x s run r :
      input_text x = Some s →
      engine_answer t s w = inr run →
      run_exception run = false →
      run_result run = Some r →
      path runs t w x
        (inr (PyStr r), configured t false (run_errors run),
         later w (<[output_path := r]> (staged s w)) true 1
           (staging_events t s w ++ replicate runs (engine_event t w) ++
            success_events r)).

End Paths.

(** [self] as [__init__] leaves it. *)
Definition fresh_transformer (path : string) : XSLTTransformer :=
  {| xslt_path := path; processor := {| license := false |};
     xslt_processor := new_xslt30_processor {| license := false |} |}.

(** The five ways through a construction. *)
Inductive construction (env : Env) (xslt_file : string) (w : World)
  : (exn + XSLTTransformer) * World → Prop :=
  | local_missing :
      is_url xslt_file = false →
      files w !! xslt_file = None →
      construction env xslt_file w
        (inl (Exn FileNotFoundError
                ("The file " +:+ xslt_file +:+ " does not exist.")),
         later env w (files w) false 0
           [ Log DEBUG ("Initializing XSLTTransformer with xslt_file: " +:+
                        xslt_file) ])
  | local_found c :
      is_url xslt_file = false →
      files w !! xslt_file = Some c →
      construction env xslt_file w
        (inr (fresh_transformer (abspath env xslt_file)),
         later env w (files w) false 0
           [ Log DEBUG ("Initializing XSLTTransformer with xslt_file: " +:+
                        xslt_file);
             Log DEBUG "XSLTTransformer initialized successfully." ])
  | url_cached c :
      is_url xslt_file = true →
      files w !! LOCAL_XSL_PATH env = Some c →
      construction env xslt_file w
        (inr (fresh_transformer (LOCAL_XSL_PATH env)),
         later env w (files w) false 0
           [ Log DEBUG ("Initializing XSLTTransformer with xslt_file: " +:+
                        xslt_file);
             Log DEBUG "XSLTTransformer initialized successfully." ])
  | url_fetched c :
      is_url xslt_file = true →
      files w !! LOCAL_XSL_PATH env = None →
      remote env xslt_file = inr c →
      construction env xslt_file w
        (inr (fresh_transformer (LOCAL_XSL_PATH env)),
         later env w (<[LOCAL_XSL_PATH env := c]> (files w)) false 0
           [ Log DEBUG ("Initializing XSLTTransformer with xslt_file: " +:+
                        xslt_file);
             Log DEBUG ("Downloading XSLT file from URL: " +:+ xslt_file);
             Urlretrieve xslt_file (LOCAL_XSL_PATH env);
             Log DEBUG "XSLTTransformer initialized successfully." ])
  | url_unreachable e :
      is_url xslt_file = true →
      files w !! LOCAL_XSL_PATH env = None →
      remote env xslt_file = inl e →
      construction env xslt_file w
        (inl e,
         later env w (files w) false 0
           [ Log DEBUG ("Initializing XSLTTransformer with xslt_file: " +:+
                        xslt_file);
             Log DEBUG ("Downloading XSLT file from URL: " +:+ xslt_file);
             Urlretrieve xslt_file (LOCAL_XSL_PATH env) ]).

(** ** A concrete environment

    One instance of the collaborators, on which the definitions above run:
    the script lives in [/srv/app], one stylesheet is on line, temporary files
    are numbered, and the engine wraps every document it knows to be well
    formed and reports an error on any other. *)

Module Sample.

(** UTF-8 decoding onto the characters that [string] has (code points
    below 256): one byte below 0x80, or a lead byte 0xC2 or 0xC3 with one
    continuation byte.  Any other byte cannot start a character here. *)
Fixpoint decode (b : list Byte.byte) : option (list ascii) :=
  match b with
  | [] => Some []
  | x :: b' =>
      let n := Byte.to_N x in
      if (n <? 128)%N then cons (ascii_of_N n) <$> decode b'
      else if ((n =? 194)%N || (n =? 195)%N)%bool then
        match b' with
        | y :: b'' =>
            let k := Byte.to_N y in
            if ((128 <=? k)%N && (k <? 192)%N)%bool then
              cons (ascii_of_N ((n - 192) * 64 + (k - 128))) <$> decode b''
            else None
        | [] => None
        end
      else None
  end.

Definition decode_text (b : list Byte.byte) : exn + string :=
  match decode b with
  | Some l => inr (text l)
  | None => inl (Exn UnicodeDecodeError "'utf-8' codec can't decode bytes")
  end.

Definition stylesheet_url : string :=
  "https://example.org/iso19139-to-geodcatap.xsl".

Definition fetch (url : string) : exn + string :=
  if String.eqb url stylesheet_url then inr "<xsl:stylesheet/>"
  else inl (Exn URLError "<urlopen error>").

Definition absolute (p : string) : string :=
  if startswith p "/" then p else path_join "/srv/app" p.

Definition well_formed (doc : string) : bool :=
  (String.eqb doc "<a/>" || String.eqb doc "<b/>")%bool.

Definition engine (_ : gmap string XdmValue) (_ : option string)
    (fs : gmap string string) (stylesheet_file source_file : string)
  : exn + saxon_run :=
  match fs !! stylesheet_file, fs !! source_file with
  | Some _, Some doc =>
      if well_formed doc then
        inr {| run_result := Some ("<rdf:RDF>" +:+ doc +:+ "</rdf:RDF>");
               run_exception := false; run_errors := [] |}
      else
        inr {| run_result := None; run_exception := true;
               run_errors := ["SXXP0003: document is not well-formed"] |}
  | _, _ => inl (Exn PySaxonApiError "file not found")
  end.

Definition env : Env :=
  {| script_dir := "/srv/app";
     abspath := absolute;
     utf8_decode := decode_text;
     repr_bytes := λ b, "b'" +:+ string_of_list_byte b +:+ "'";
     remote := fetch;
     temp_stem := λ n, "/tmp/tmp" +:+ text (repeat "x"%char n);
     saxon := engine |}.

(** The same environment with a stylesheet that produces no output (text
    output method and an empty template for the root, say): the engine
    returns the empty text for every document and reports no exception. *)
Definition silent_engine (_ : gmap string XdmValue) (_ : option string)
    (fs : gmap string string) (stylesheet_file source_file : string)
  : exn + saxon_run :=
  match fs !! stylesheet_file, fs !! source_file with
  | Some _, Some _ =>
      inr {| run_result := Some ""; run_exception := false;
             run_errors := [] |}
  | _, _ => inl (Exn PySaxonApiError "file not found")
  end.

Definition silent_env : Env :=
  {| script_dir := "/srv/app";
     abspath := absolute;
     utf8_decode := decode_text;
     repr_bytes := λ b, "b'" +:+ string_of_list_byte b +:+ "'";
     remote := fetch;
     temp_stem := λ n, "/tmp/tmp" +:+ text (repeat "x"%char n);
     saxon := silent_engine |}.

(** A disk that holds a local stylesheet and nothing else. *)
Definition world0 : World :=
  {| files := {[ "/srv/app/local.xsl" := "<xsl:stylesheet/>" ]};
     dirs := ∅; temp_seq := 0; trace := [] |}.

End Sample.

(** ** An engine without result

    The sample environment with an engine that returns [None] and reports
    nothing. *)

Module Mute.

Definition engine (_ : gmap string XdmValue) (_ : option string)
    (fs : gmap string string) (stylesheet_file source_file : string)
  : exn + saxon_run :=
  inr {| run_result := None; run_exception := false; run_errors := [] |}.

Definition env : Env :=
  {| script_dir := script_dir Sample.env;
     abspath := abspath Sample.env;
     utf8_decode := utf8_decode Sample.env;
     repr_bytes := repr_bytes Sample.env;
     remote := remote Sample.env;
     temp_stem := temp_stem Sample.env;
     saxon := engine |}.

End Mute.

(** ** The script around the class

    Lines 126 to 136: the document is downloaded, a transformer is built from
    the stylesheet reference, and the document is transformed.  The file
    [config.yaml] that lines 10 to 17 read is not part of the sources; the two
    values taken from it are parameters, with [urlopen]. *)

Inductive VerifyMode := CERT_NONE | CERT_REQUIRED.

Record SSLContext := { check_hostname : bool; verify_mode : VerifyMode }.

(** [ssl._create_unverified_context()]. *)
Definition create_unverified_context : SSLContext :=
  {| check_hostname := false; verify_mode := CERT_NONE |}.

Record Host := {
  XML_URL : string;
  XSL_URL : string;
  urlopen_read : string → SSLContext → exn + list Byte.byte
}.

(** The world and the requests made with [urlopen], oldest first. *)
Record Process := {
  proc_world : World;
  requests : list (string * SSLContext)
}.

Definition in_process {A} (m : M World A) : M Process A :=
  λ st, let '(r, w) := m (proc_world st) in
        (r, {| proc_world := w; requests := requests st |}).

Section Main.

Context (env : Env) (host : Host).

(** [urlopen(url, context=context).read()]. *)
Definition urlopen (url : string) (context : SSLContext)
  : M Process (list Byte.byte) :=
  modify (λ st, {| proc_world := proc_world st;
                   requests := requests st ++ [(url, context)] |}) ;;
  lift_result (urlopen_read host url context).

(** [transformer.transform(xml_data)], seen from the script: the object as
    the call leaves it, and the value returned. *)
Definition call_transform (transformer : XSLTTransformer) (xml_data : pyval)
  : M Process (XSLTTransformer * pyval) :=
  λ st, let '(r, t, w) := transform env transformer xml_data (proc_world st) in
        (match r with inl e => inl e | inr v => inr (t, v) end,
         {| proc_world := w; requests := requests st |}).

(** Returns [transformer] and [rdf_result]. *)
Definition main : M Process (XSLTTransformer * pyval) :=
  let context := create_unverified_context in
  xml_content ← urlopen (XML_URL host) context;
  transformer ← in_process (init env (XSL_URL host));
  call_transform transformer (PyBytes xml_content).

End Main.

Module SampleHost.

Definition document : list Byte.byte :=
  [Byte.x3c; Byte.x61; Byte.x2f; Byte.x3e].

Definition host : Host :=
  {| XML_URL := "https://example.org/csw?id=1";
     XSL_URL := Sample.stylesheet_url;
     urlopen_read := λ url _,
       if String.eqb url "https://example.org/csw?id=1" then inr document
       else inl (Exn URLError "<urlopen error>") |}.

Definition start : Process :=
  {| proc_world := Sample.world0; requests := [] |}.

End SampleHost.

(** * Properties *)

(** ** Text and paths *)

Lemma chars_append (a b : string) : chars (a +:+ b) = (chars a ++ chars b)%list.
Proof.
  induction a as [|c a IH]; [reflexivity|].
  change (String c a +:+ b) with (String c (a +:+ b)).
  unfold chars in *. cbn. by rewrite IH.
Qed.

Lemma last_char_append (a b : string) (c : ascii) :
  last_char b = Some c → last_char (a +:+ b) = Some c.
Proof.
  unfold last_char. rewrite chars_append, rev_app_distr.
  destruct (rev (chars b)) as [|c' l]; [discriminate|]. by cbn.
Qed.

(** A joined path ends as its relative last component does. *)
Lemma last_char_path_join (a b : string) (c : ascii) :
  startswith b "/" = false → last_char b = Some c →
  last_char (path_join a b) = Some c.
Proof.
  intros Hb Hc. unfold path_join. rewrite Hb.
  destruct (_ || _)%bool; auto using last_char_append.
Qed.

Lemma last_char_error_path env : last_char (error_path env) = Some "g"%char.
Proof. by apply last_char_path_join. Qed.

Lemma last_char_output_path env : last_char (output_path env) = Some "f"%char.
Proof. by apply last_char_path_join. Qed.

Lemma last_char_input_raw_path env :
  last_char (input_raw_path env) = Some "l"%char.
Proof. by apply last_char_path_join. Qed.

Lemma last_char_temp_file_path env w :
  last_char (temp_file_path env w) = Some "l"%char.
Proof. by apply last_char_append. Qed.

Lemma differ_by_last_char (p q : string) (c d : ascii) :
  last_char p = Some c → last_char q = Some d → c ≠ d → p ≠ q.
Proof. intros Hp Hq Hcd ->. congruence. Qed.

Lemma error_path_not_input_raw env : input_raw_path env ≠ error_path env.
Proof.
  eapply differ_by_last_char;
    [apply last_char_input_raw_path | apply last_char_error_path | done].
Qed.

Lemma error_path_not_temp env w : temp_file_path env w ≠ error_path env.
Proof.
  eapply differ_by_last_char;
    [apply last_char_temp_file_path | apply last_char_error_path | done].
Qed.

Lemma error_path_not_output env : output_path env ≠ error_path env.
Proof.
  eapply differ_by_last_char;
    [apply last_char_output_path | apply last_char_error_path | done].
Qed.

Lemma output_path_not_input_raw env : output_path env ≠ input_raw_path env.
Proof.
  eapply differ_by_last_char;
    [apply last_char_output_path | apply last_char_input_raw_path | done].
Qed.

(** [s[:n]] is the whole text when it has at most [n] characters, and its
    first [n] characters otherwise. *)
Lemma slice_to_short (n : nat) (s : string) :
  (String.length s ≤ n)%nat → slice_to n s = s.
Proof.
  revert n. induction s as [|c s IH]; intros [|n] Hn; cbn in *;
    try reflexivity; try lia.
  f_equal. apply IH. lia.
Qed.

Lemma slice_to_long (n : nat) (s : string) :
  (n ≤ String.length s)%nat →
  String.length (slice_to n s) = n ∧ ∃ rest, s = slice_to n s +:+ rest.
Proof.
  revert n. induction s as [|c s IH]; intros [|n] Hn; cbn in *; try lia.
  - split; [done|by exists ""].
  - split; [done|]. by exists (String c s).
  - destruct (IH n) as [Hl [rest Hr]]; [lia|]. split; [by rewrite Hl|].
    exists rest. change (String c (slice_to n s) +:+ rest)
      with (String c (slice_to n s +:+ rest)). by rewrite <- Hr.
Qed.

#[local] Arguments path_join : simpl never.
#[local] Arguments dirname : simpl never.
#[local] Arguments slice_to : simpl never.
#[local] Arguments String.append : simpl never.

(** ** Symbolic evaluation *)

Lemma append_nil_l (s : string) : "" +:+ s = s.
Proof. reflexivity. Qed.

Ltac run :=
  cbv [mbind M_bind mret M_ret gets modify raise lift_result try_except
       in_world emit log_debug log_error open_w file_write makedirs
       with_files with_event assign_xml_data assign_output_dir assign_self
       assign_processor assign_xslt_processor load_output_dir
       on_xslt_processor named_temporary_file urlretrieve isfile preview
       set_parameter set_cwd new_xslt30_processor make_boolean_value
       of_optional
       files dirs temp_seq trace self local_xml_data local_output_dir world
       xslt_path processor xslt_processor parameters cwd exception_occurred
       error_message run_result run_exception run_errors].

Ltac tidy :=
  repeat (rewrite lookup_insert_eq; cbn [default from_option id]);
  rewrite ?append_nil_l, ?insert_insert_eq;
  rewrite <- ?app_assoc; cbn [app].

Ltac expose :=
  unfold transform, transform_once, call, transform_try, transform_try_once,
    prepare, configure, stage_source, execute, execute_once, check_and_save,
    transform_to_string, transform_except.

Ltac unfold_paths :=
  unfold later, staging_events, failure_events, success_events,
    engine_event, engine_answer, staged, configured, temp_file_path,
    error_path, output_path, input_raw_path, output_dir_path,
    resolve_external, engine_failed, not_text, not_subscriptable,
    unbound_output_dir, error_head, error_tail, engine_error_log in *;
  cbn [files dirs temp_seq trace xslt_path processor xslt_processor
       run_result run_exception run_errors exn_str] in *.

(** The loop over the engine's messages adds one log record per message. *)
Lemma for_each_emits {A} (g : A → event) (f : A → M Frame unit) (l : list A) :
  (∀ a fr, f a fr =
     (inr tt, {| self := self fr; local_xml_data := local_xml_data fr;
                 local_output_dir := local_output_dir fr;
                 world := with_event (g a) (world fr) |})) →
  ∀ t x o w,
    for_each l f {| self := t; local_xml_data := x; local_output_dir := o;
                    world := w |} =
      (inr tt,
       {| self := t; local_xml_data := x; local_output_dir := o;
          world := {| files := files w; dirs := dirs w;
                      temp_seq := temp_seq w;
                      trace := trace w ++ (g <$> l) |} |}).
Proof.
  intros Hf. induction l as [|a l IH]; intros t x o w.
  - cbn. rewrite app_nil_r. destruct w; reflexivity.
  - cbn [for_each]. unfold mbind, M_bind. rewrite Hf. cbn [self local_xml_data
      local_output_dir world]. rewrite IH. cbn. rewrite <- app_assoc.
    reflexivity.
Qed.

(** ** Every call follows one of the six paths *)

Ltac engine_step H := run; tidy; rewrite ?H; run; tidy.

Ltac loop_step :=
  try (rewrite (for_each_emits
                  (λ m, Log ERROR ("Error in XSLT transformation: " +:+ m)));
       [| intros ? []; reflexivity ]);
  run; tidy.

Ltac close_path :=
  cbn [replicate app];
  rewrite ?Nat.add_0_r, ?Nat.add_1_r; rewrite <- ?app_assoc; cbn [app];
  reflexivity.

(** Bytes that decode are text from line 64 on. *)
Lemma transform_decoded env t x s w :
  input_text env x = Some s →
  transform env t x w = transform env t (PyStr s) w.
Proof.
  destruct x as [|s'|b]; cbn; intros Hx; try discriminate.
  - by injection Hx as ->.
  - destruct (utf8_decode env b) as [?|s'] eqn:Hd; [discriminate|].
    injection Hx as ->. expose. run. rewrite Hd. reflexivity.
Qed.

Lemma transform_once_decoded env t x s w :
  input_text env x = Some s →
  transform_once env t x w = transform_once env t (PyStr s) w.
Proof.
  destruct x as [|s'|b]; cbn; intros Hx; try discriminate.
  - by injection Hx as ->.
  - destruct (utf8_decode env b) as [?|s'] eqn:Hd; [discriminate|].
    injection Hx as ->. expose. run. rewrite Hd. reflexivity.
Qed.

Ltac settle Hx Ha :=
  first [ rewrite (transform_decoded _ _ _ _ _ Hx)
        | rewrite (transform_once_decoded _ _ _ _ _ Hx) ];
  match goal with
  | |- context [transform _ ?t _ ?w] =>
      destruct t as [xp pr xsl], w as [fs ds n tr]; unfold_paths;
      expose; engine_step Ha; engine_step Ha; loop_step; close_path
  | |- context [transform_once _ ?t _ ?w] =>
      destruct t as [xp pr xsl], w as [fs ds n tr]; unfold_paths;
      expose; engine_step Ha; loop_step; close_path
  end.

Lemma transform_raised env t x s w e :
  input_text env x = Some s →
  engine_answer env t s w = inl e →
  transform env t x w =
    (inl e, configured t false [],
     later env w
       (<[error_path env := error_head e +:+ error_tail s]> (staged env s w))
       true 1
       (staging_events env t s w ++ [engine_event env t w] ++
        failure_events env e s)).
Proof. intros Hx Ha. settle Hx Ha. Qed.

Lemma transform_reported env t x s w run :
  input_text env x = Some s →
  engine_answer env t s w = inr run →
  run_exception run = true →
  transform env t x w =
    (inl engine_failed, configured t true (run_errors run),
     later env w
       (<[error_path env := error_head engine_failed +:+ error_tail s]>
          (staged env s w)) true 1
       (staging_events env t s w ++ replicate 2 (engine_event env t w) ++
        engine_error_log (run_errors run) ++
        failure_events env engine_failed s)).
Proof.
  intros Hx Ha Hf. destruct run as [res flag errs]. cbn in Hf. subst flag.
  settle Hx Ha.
Qed.

Lemma transform_no_result env t x s w run :
  input_text env x = Some s →
  engine_answer env t s w = inr run →
  run_exception run = false →
  run_result run = None →
  transform env t x w =
    (inl not_text, configured t false (run_errors run),
     later env w
       (<[error_path env := error_head not_text +:+ error_tail s]>
          (<[output_path env := ""]> (staged env s w))) true 1
       (staging_events env t s w ++ replicate 2 (engine_event env t w) ++
        [OpenW (output_path env)] ++ failure_events env not_text s)).
Proof.
  intros Hx Ha Hf Hr. destruct run as [res flag errs]. cbn in Hf, Hr. subst.
  settle Hx Ha.
Qed.

Lemma transform_success env t x s w run r :
  input_text env x = Some s →
  engine_answer env t s w = inr run →
  run_exception run = false →
  run_result run = Some r →
  transform env t x w =
    (inr (PyStr r), configured t false (run_errors run),
     later env w (<[output_path env := r]> (staged env s w)) true 1
       (staging_events env t s w ++ replicate 2 (engine_event env t w) ++
        success_events env r)).
Proof.
  intros Hx Ha Hf Hr. destruct run as [res flag errs]. cbn in Hf, Hr. subst.
  settle Hx Ha.
Qed.

Lemma transform_once_raised env t x s w e :
  input_text env x = Some s →
  engine_answer env t s w = inl e →
  transform_once env t x w =
    (inl e, configured t false [],
     later env w
       (<[error_path env := error_head e +:+ error_tail s]> (staged env s w))
       true 1
       (staging_events env t s w ++ [engine_event env t w] ++
        failure_events env e s)).
Proof. intros Hx Ha. settle Hx Ha. Qed.

Lemma transform_once_reported env t x s w run :
  input_text env x = Some s →
  engine_answer env t s w = inr run →
  run_exception run = true →
  transform_once env t x w =
    (inl engine_failed, configured t true (run_errors run),
     later env w
       (<[error_path env := error_head engine_failed +:+ error_tail s]>
          (staged env s w)) true 1
       (staging_events env t s w ++ replicate 1 (engine_event env t w) ++
        engine_error_log (run_errors run) ++
        failure_events env engine_failed s)).
Proof.
  intros Hx Ha Hf. destruct run as [res flag errs]. cbn in Hf. subst flag.
  settle Hx Ha.
Qed.

Lemma transform_once_no_result env t x s w run :
  input_text env x = Some s →
  engine_answer env t s w = inr run →
  run_exception run = false →
  run_result run = None →
  transform_once env t x w =
    (inl not_text, configured t false (run_errors run),
     later env w
       (<[error_path env := error_head not_text +:+ error_tail s]>
          (<[output_path env := ""]> (staged env s w))) true 1
       (staging_events env t s w ++ replicate 1 (engine_event env t w) ++
        [OpenW (output_path env)] ++ failure_events env not_text s)).
Proof.
  intros Hx Ha Hf Hr. destruct run as [res flag errs]. cbn in Hf, Hr. subst.
  settle Hx Ha.
Qed.

Lemma transform_once_success env t x s w run r :
  input_text env x = Some s →
  engine_answer env t s w = inr run →
  run_exception run = false →
  run_result run = Some r →
  transform_once env t x w =
    (inr (PyStr r), configured t false (run_errors run),
     later env w (<[output_path env := r]> (staged env s w)) true 1
       (staging_events env t s w ++ replicate 1 (engine_event env t w) ++
        success_events env r)).
Proof.
  intros Hx Ha Hf Hr. destruct run as [res flag errs]. cbn in Hf, Hr. subst.
  settle Hx Ha.
Qed.

Lemma transform_undecodable env t b e w :
  utf8_decode env b = inl e →
  transform env t (PyBytes b) w =
    (inl unbound_output_dir, t,
     later env w (files w) false 0
       [ Log DEBUG "Starting XML transformation.";
         Log ERROR ("Failed to transform XML content: " +:+ exn_str e) ]).
Proof.
  intros Hd. destruct t, w. unfold_paths. expose. run. rewrite Hd. run. tidy.
  close_path.
Qed.

Lemma transform_once_undecodable env t b e w :
  utf8_decode env b = inl e →
  transform_once env t (PyBytes b) w =
    (inl unbound_output_dir, t,
     later env w (files w) false 0
       [ Log DEBUG "Starting XML transformation.";
         Log ERROR ("Failed to transform XML content: " +:+ exn_str e) ]).
Proof.
  intros Hd. destruct t, w. unfold_paths. expose. run. rewrite Hd. run. tidy.
  close_path.
Qed.

Lemma transform_none env t w :
  transform env t PyNone w =
    (inl not_subscriptable, t,
     later env w (<[error_path env := error_head not_text]>
                    (<[input_raw_path env := ""]> (files w))) true 0
       [ Log DEBUG "Starting XML transformation.";
         Makedirs (output_dir_path env); OpenW (input_raw_path env);
         Log ERROR ("Failed to transform XML content: " +:+ exn_str not_text);
         OpenW (error_path env);
         WriteFile (error_path env) (error_head not_text) ]).
Proof. destruct t, w. unfold_paths. expose. run. tidy. close_path. Qed.

Lemma transform_once_none env t w :
  transform_once env t PyNone w =
    (inl not_subscriptable, t,
     later env w (<[error_path env := error_head not_text]>
                    (<[input_raw_path env := ""]> (files w))) true 0
       [ Log DEBUG "Starting XML transformation.";
         Makedirs (output_dir_path env); OpenW (input_raw_path env);
         Log ERROR ("Failed to transform XML content: " +:+ exn_str not_text);
         OpenW (error_path env);
         WriteFile (error_path env) (error_head not_text) ]).
Proof. destruct t, w. unfold_paths. expose. run. tidy. close_path. Qed.

Lemma input_text_cases env x :
  x = PyNone ∨ (∃ b e, x = PyBytes b ∧ utf8_decode env b = inl e) ∨
  (∃ s, input_text env x = Some s).
Proof.
  destruct x as [|s|b]; [by left| right; right; by exists s |].
  cbn. destruct (utf8_decode env b) as [e|s] eqn:Hd.
  - right; left. by exists b, e.
  - right; right. by exists s.
Qed.

(** [transform] follows one of the six paths, with two engine runs. *)
Theorem transform_path env t x w : path env 2 t w x (transform env t x w).
Proof.
  destruct (input_text_cases env x) as [->|[(b & e & -> & Hd)|[s Hx]]].
  - rewrite transform_none. constructor.
  - rewrite (transform_undecodable _ _ _ _ _ Hd). by constructor.
  - destruct (engine_answer env t s w) as [e|run] eqn:Ha.
    + rewrite (transform_raised _ _ _ _ _ _ Hx Ha). by eapply path_raised.
    + destruct (run_exception run) eqn:Hf.
      * rewrite (transform_reported _ _ _ _ _ _ Hx Ha Hf).
        by eapply path_reported.
      * destruct (run_result run) as [r|] eqn:Hr.
        -- rewrite (transform_success _ _ _ _ _ _ _ Hx Ha Hf Hr).
           by eapply path_success.
        -- rewrite (transform_no_result _ _ _ _ _ _ Hx Ha Hf Hr).
           by eapply path_no_result.
Qed.

(** So does the single-run variant, with one engine run. *)
Theorem transform_once_path env t x w :
  path env 1 t w x (transform_once env t x w).
Proof.
  destruct (input_text_cases env x) as [->|[(b & e & -> & Hd)|[s Hx]]].
  - rewrite transform_once_none. constructor.
  - rewrite (transform_once_undecodable _ _ _ _ _ Hd). by constructor.
  - destruct (engine_answer env t s w) as [e|run] eqn:Ha.
    + rewrite (transform_once_raised _ _ _ _ _ _ Hx Ha). by eapply path_raised.
    + destruct (run_exception run) eqn:Hf.
      * rewrite (transform_once_reported _ _ _ _ _ _ Hx Ha Hf).
        by eapply path_reported.
      * destruct (run_result run) as [r|] eqn:Hr.
        -- rewrite (transform_once_success _ _ _ _ _ _ _ Hx Ha Hf Hr).
           by eapply path_success.
        -- rewrite (transform_once_no_result _ _ _ _ _ _ Hx Ha Hf Hr).
           by eapply path_no_result.
Qed.

(** ** Traces *)

Lemma since_later env w fs made temps evs :
  since w (later env w fs made temps evs) = evs.
Proof. unfold since, later. cbn. apply drop_app_length. Qed.

Lemma engine_runs_app (l k : list event) :
  engine_runs (l ++ k)%list = (engine_runs l ++ engine_runs k)%list.
Proof. apply List.filter_app. Qed.

Lemma engine_runs_engine_error_log msgs :
  engine_runs (engine_error_log msgs) = [].
Proof. induction msgs; [done|]. cbn. done. Qed.

(** ** Every construction follows one of the five paths *)

Ltac init_step Hu Hf :=
  unfold init; rewrite Hu; run; rewrite Hf; cbn [negb]; run; tidy.

(** [__init__] follows one of the five paths. *)
Theorem init_construction env xslt_file w :
  construction env xslt_file w (init env xslt_file w).
Proof.
  destruct (is_url xslt_file) eqn:Hu.
  - destruct (files w !! LOCAL_XSL_PATH env) as [c|] eqn:Hf.
    + assert (init env xslt_file w =
        (inr (fresh_transformer (LOCAL_XSL_PATH env)),
         later env w (files w) false 0
           [ Log DEBUG ("Initializing XSLTTransformer with xslt_file: " +:+
                        xslt_file);
             Log DEBUG "XSLTTransformer initialized successfully." ])) as ->;
        [|by eapply url_cached].
      destruct w. unfold_paths. init_step Hu Hf. close_path.
    + destruct (remote env xslt_file) as [e|c] eqn:Hr.
      * assert (init env xslt_file w =
          (inl e,
           later env w (files w) false 0
             [ Log DEBUG ("Initializing XSLTTransformer with xslt_file: " +:+
                          xslt_file);
               Log DEBUG ("Downloading XSLT file from URL: " +:+ xslt_file);
               Urlretrieve xslt_file (LOCAL_XSL_PATH env) ])) as ->;
          [|by eapply url_unreachable].
        destruct w. unfold_paths. init_step Hu Hf. rewrite Hr. run. tidy.
        close_path.
      * assert (init env xslt_file w =
          (inr (fresh_transformer (LOCAL_XSL_PATH env)),
           later env w (<[LOCAL_XSL_PATH env := c]> (files w)) false 0
             [ Log DEBUG ("Initializing XSLTTransformer with xslt_file: " +:+
                          xslt_file);
               Log DEBUG ("Downloading XSLT file from URL: " +:+ xslt_file);
               Urlretrieve xslt_file (LOCAL_XSL_PATH env);
               Log DEBUG "XSLTTransformer initialized successfully." ])) as ->;
          [|by eapply url_fetched].
        destruct w. unfold_paths. init_step Hu Hf. rewrite Hr. run. tidy.
        close_path.
  - destruct (files w !! xslt_file) as [c|] eqn:Hf.
    + assert (init env xslt_file w =
        (inr (fresh_transformer (abspath env xslt_file)),
         later env w (files w) false 0
           [ Log DEBUG ("Initializing XSLTTransformer with xslt_file: " +:+
                        xslt_file);
             Log DEBUG "XSLTTransformer initialized successfully." ])) as ->;
        [|by eapply local_found].
      destruct w. unfold_paths. init_step Hu Hf. close_path.
    + assert (init env xslt_file w =
        (inl (Exn FileNotFoundError
                ("The file " +:+ xslt_file +:+ " does not exist.")),
         later env w (files w) false 0
           [ Log DEBUG ("Initializing XSLTTransformer with xslt_file: " +:+
                        xslt_file) ])) as ->;
        [|by eapply local_missing].
      destruct w. unfold_paths. init_step Hu Hf. close_path.
Qed.

(** * The claims *)

(** ** Construction *)

(** C7.  A local stylesheet path (one that is not an http or https URL) that
    names no file makes the construction raise [FileNotFoundError]; a path
    that names a file is resolved with [os.path.abspath].  In both cases
    nothing is downloaded and the disk is left as it was. *)
Theorem local_stylesheet_must_exist env xslt_file w :
  is_url xslt_file = false →
  let built := init env xslt_file w in
  match files w !! xslt_file with
  | None =>
      built.1 = inl (Exn FileNotFoundError
                       ("The file " +:+ xslt_file +:+ " does not exist."))
  | Some _ =>
      ∃ t, built.1 = inr t ∧ xslt_path t = abspath env xslt_file
  end ∧
  fetched (since w built.2) = [] ∧
  files built.2 = files w.
Proof.
  intros Hu built. subst built.
  destruct (init_construction env xslt_file w) as [? Hf|c ? Hf|c ? Hf|c|e];
    try congruence; cbn [fst snd]; rewrite Hf, since_later; cbn; eauto.
Qed.

Lemma local_stylesheet_must_exist_witness :
  (let built := init Sample.env "missing.xsl" Sample.world0 in
   match files Sample.world0 !! "missing.xsl" with
   | None =>
       built.1 = inl (Exn FileNotFoundError
                        ("The file " +:+ "missing.xsl" +:+ " does not exist."))
   | Some _ =>
       ∃ t, built.1 = inr t ∧ xslt_path t = abspath Sample.env "missing.xsl"
   end ∧
   fetched (since Sample.world0 built.2) = [] ∧
   files built.2 = files Sample.world0) ∧
  (let built := init Sample.env "/srv/app/local.xsl" Sample.world0 in
   match files Sample.world0 !! "/srv/app/local.xsl" with
   | None =>
       built.1 = inl (Exn FileNotFoundError
                        ("The file " +:+ "/srv/app/local.xsl" +:+
                         " does not exist."))
   | Some _ =>
       ∃ t, built.1 = inr t ∧
            xslt_path t = abspath Sample.env "/srv/app/local.xsl"
   end ∧
   fetched (since Sample.world0 built.2) = [] ∧
   files built.2 = files Sample.world0).
Proof.
  split.
  - apply (local_stylesheet_must_exist Sample.env "missing.xsl" Sample.world0).
    reflexivity.
  - apply (local_stylesheet_must_exist Sample.env "/srv/app/local.xsl"
             Sample.world0).
    reflexivity.
Defined.

(** C6.  For a stylesheet given as an http or https URL the cache path is the
    constant [LOCAL_XSL_PATH]; a construction that succeeds has fetched the
    URL exactly when no file was there, and leaves a file there; constructing
    again from the world it leaves gives the same transformer, the same disk
    and no further fetch. *)
Theorem stylesheet_downloaded_once env url w t w1 :
  is_url url = true →
  init env url w = (inr t, w1) →
  xslt_path t = LOCAL_XSL_PATH env ∧
  fetched (since w w1) =
    match files w !! LOCAL_XSL_PATH env with Some _ => [] | None => [url] end ∧
  (∃ c, files w1 !! LOCAL_XSL_PATH env = Some c ∧
        match files w !! LOCAL_XSL_PATH env with
        | Some c0 => c = c0
        | None => remote env url = inr c
        end) ∧
  let again := init env url w1 in
  again.1 = inr t ∧
  files again.2 = files w1 ∧
  fetched (since w1 again.2) = [].
Proof.
  intros Hu Hb.
  assert (∃ c, files w1 !! LOCAL_XSL_PATH env = Some c ∧
               match files w !! LOCAL_XSL_PATH env with
               | Some c0 => c = c0
               | None => remote env url = inr c
               end ∧
               t = fresh_transformer (LOCAL_XSL_PATH env) ∧
               fetched (since w w1) =
                 match files w !! LOCAL_XSL_PATH env with
                 | Some _ => [] | None => [url] end)
    as (c & Hc & Hsrc & -> & Hfetch).
  { destruct (init_construction env url w) as [|? ?|c ? Hf|c ? Hf ?|e];
      try congruence; injection Hb as <- <-; rewrite since_later, Hf;
      exists c; cbn; [done|].
    by rewrite lookup_insert_eq. }
  split; [done|]. split; [done|]. split; [by exists c|].
  destruct (init_construction env url w1) as [|? ?|c' ? Hf|c' ? Hf ?|e];
    try congruence; cbn [fst snd]; by rewrite since_later.
Qed.

Lemma stylesheet_downloaded_once_witness :
  is_url Sample.stylesheet_url = true ∧
  xslt_path (fresh_transformer (LOCAL_XSL_PATH Sample.env)) =
    LOCAL_XSL_PATH Sample.env ∧
  fetched (since Sample.world0
             (init Sample.env Sample.stylesheet_url Sample.world0).2) =
    match files Sample.world0 !! LOCAL_XSL_PATH Sample.env with
    | Some _ => [] | None => [Sample.stylesheet_url] end ∧
  (∃ c, files (init Sample.env Sample.stylesheet_url Sample.world0).2
          !! LOCAL_XSL_PATH Sample.env = Some c ∧
        match files Sample.world0 !! LOCAL_XSL_PATH Sample.env with
        | Some c0 => c = c0
        | None => remote Sample.env Sample.stylesheet_url = inr c
        end) ∧
  let again := init Sample.env Sample.stylesheet_url
                 (init Sample.env Sample.stylesheet_url Sample.world0).2 in
  again.1 = inr (fresh_transformer (LOCAL_XSL_PATH Sample.env)) ∧
  files again.2 =
    files (init Sample.env Sample.stylesheet_url Sample.world0).2 ∧
  fetched (since (init Sample.env Sample.stylesheet_url Sample.world0).2
             again.2) = [].
Proof.
  split; [reflexivity|].
  apply (stylesheet_downloaded_once Sample.env Sample.stylesheet_url
           Sample.world0); vm_compute; reflexivity.
Defined.

(** C5, as stated, fails: the transformer that the construction returns has
    no working directory and no [resolve-external] parameter. *)
Lemma construction_leaves_engine_unconfigured :
  ∃ t w,
    init Sample.env "/srv/app/local.xsl" Sample.world0 = (inr t, w) ∧
    cwd (xslt_processor t) ≠ Some (dirname (xslt_path t)) ∧
    parameters (xslt_processor t) !! "resolve-external" ≠
      Some (XdmBoolean false).
Proof.
  eexists _, _. split; [vm_compute; reflexivity|].
  split; intros H; vm_compute in H; discriminate.
Qed.

Lemma engine_runs_staging_events env t s w :
  engine_runs (staging_events env t s w) = [].
Proof. reflexivity. Qed.

Lemma engine_runs_failure_events env e s :
  engine_runs (failure_events env e s) = [].
Proof. reflexivity. Qed.

Lemma engine_runs_success_events env r :
  engine_runs (success_events env r) = [].
Proof. reflexivity. Qed.

Ltac observe :=
  unfold outcome, final_self, final_world; cbn [fst snd];
  rewrite ?since_later.

Ltac count_runs :=
  rewrite ?engine_runs_app, ?engine_runs_staging_events,
    ?engine_runs_failure_events, ?engine_runs_success_events,
    ?engine_runs_engine_error_log; cbn [replicate app engine_runs
    List.filter is_engine_run engine_event].

(** C5, amended.  The construction creates a processor without working
    directory and without parameters, and runs no transformation.  Every run
    of the engine that a call of [transform] makes on the transformer, as
    constructed or as earlier calls have left it, is made with the parameter
    [resolve-external] set to false and nothing else, and with the directory
    of the resolved stylesheet as working directory; a call whose input has a
    text runs the engine, any other call does not. *)
Theorem engine_configured_at_each_run env xslt_file w0 t w t' x w1 :
  init env xslt_file w0 = (inr t, w) →
  xslt_path t' = xslt_path t →
  cwd (xslt_processor t) = None ∧
  parameters (xslt_processor t) = ∅ ∧
  engine_runs (since w0 w) = [] ∧
  let res := transform env t' x w1 in
  Forall (λ ev, ev = TransformToString
                       (<["resolve-external" := XdmBoolean false]> ∅)
                       (Some (dirname (xslt_path t))) (xslt_path t)
                       (temp_file_path env w1))
         (engine_runs (since w1 (final_world res))) ∧
  match input_text env x with
  | Some _ => engine_runs (since w1 (final_world res)) ≠ []
  | None => engine_runs (since w1 (final_world res)) = []
  end.
Proof.
  intros Hb Hp.
  assert (cwd (xslt_processor t) = None ∧ parameters (xslt_processor t) = ∅ ∧
          engine_runs (since w0 w) = []) as (? & ? & ?).
  { destruct (init_construction env xslt_file w0); try congruence;
      injection Hb as <- <-; by rewrite since_later. }
  do 3 (split; [done|]). intros res. subst res. rewrite <- Hp.
  destruct (transform_path env t' x w1) as
    [|b e Hd|x s e Hx|x s run Hx|x s run Hx|x s run r Hx];
    observe; count_runs; rewrite ?Hx; cbn [input_text]; rewrite ?Hd;
    split; try done; repeat constructor.
Qed.

Lemma engine_configured_at_each_run_witness :
  let t := fresh_transformer "/srv/app/local.xsl" in
  let first := transform Sample.env t (PyStr "<a>") Sample.world0 in
  cwd (xslt_processor t) = None ∧
  parameters (xslt_processor t) = ∅ ∧
  engine_runs
    (since Sample.world0
       (init Sample.env "/srv/app/local.xsl" Sample.world0).2) = [] ∧
  let res := transform Sample.env (final_self first) (PyStr "<a/>")
               (final_world first) in
  Forall (λ ev, ev = TransformToString
                       (<["resolve-external" := XdmBoolean false]> ∅)
                       (Some (dirname (xslt_path t))) (xslt_path t)
                       (temp_file_path Sample.env (final_world first)))
         (engine_runs (since (final_world first) (final_world res))) ∧
  match input_text Sample.env (PyStr "<a/>") with
  | Some _ => engine_runs (since (final_world first) (final_world res)) ≠ []
  | None => engine_runs (since (final_world first) (final_world res)) = []
  end.
Proof.
  apply (engine_configured_at_each_run Sample.env "/srv/app/local.xsl"
           Sample.world0 (fresh_transformer "/srv/app/local.xsl")
           (init Sample.env "/srv/app/local.xsl" Sample.world0).2
           (final_self (transform Sample.env
                          (fresh_transformer "/srv/app/local.xsl")
                          (PyStr "<a>") Sample.world0))
           (PyStr "<a/>")
           (final_world (transform Sample.env
                           (fresh_transformer "/srv/app/local.xsl")
                           (PyStr "<a>") Sample.world0)));
    vm_compute; reflexivity.
Defined.

Lemma input_text_unique env x s s' :
  input_text env x = Some s → input_text env x = Some s' → s = s'.
Proof. congruence. Qed.

(** C1, as stated, fails: a transformer built from an existing local
    stylesheet returns the empty text on a well-formed document when that is
    what the engine produces; the script does not look at the length of the
    result. *)
Lemma transform_may_return_empty_text :
  ∃ t w,
    init Sample.silent_env "/srv/app/local.xsl" Sample.world0 = (inr t, w) ∧
    outcome (transform Sample.silent_env t (PyStr "<a/>") w) = inr (PyStr "").
Proof.
  eexists _, _. split; [vm_compute; reflexivity|]. vm_compute. reflexivity.
Qed.

(** C1, amended.  When the input has a text [s] and the engine, run on it,
    returns the text [r] without reporting an exception, [transform] returns
    [r] (which may be empty), leaves [r] in [transformed_output.rdf] and [s]
    in [input_raw.xml], opens for writing these two files and the temporary
    source file and no other, and leaves [transformation_error.log] as it
    was. *)
Theorem transform_returns_engine_text env t x s w run r :
  input_text env x = Some s →
  engine_answer env t s w = inr run →
  run_exception run = false →
  run_result run = Some r →
  let res := transform env t x w in
  outcome res = inr (PyStr r) ∧
  files (final_world res) !! output_path env = Some r ∧
  files (final_world res) !! input_raw_path env = Some s ∧
  opened (since w (final_world res)) =
    [input_raw_path env; temp_file_path env w; output_path env] ∧
  (error_path env ∉ opened (since w (final_world res))) ∧
  files (final_world res) !! error_path env = files w !! error_path env.
Proof.
  intros Hx Ha Hf Hr res. subst res.
  rewrite (transform_success _ _ _ _ _ _ _ Hx Ha Hf Hr). observe.
  unfold later, staged. cbn [files].
  pose proof (error_path_not_input_raw env).
  pose proof (error_path_not_temp env w).
  pose proof (error_path_not_output env).
  pose proof (output_path_not_input_raw env).
  split; [done|]. split; [by rewrite lookup_insert_eq|].
  split.
  { rewrite lookup_insert_ne by done.
    destruct (decide (temp_file_path env w = input_raw_path env)) as [->|];
      [by rewrite lookup_insert_eq|].
    rewrite lookup_insert_ne by done. by rewrite lookup_insert_eq. }
  split; [reflexivity|]. split.
  - change (opened _) with
      [input_raw_path env; temp_file_path env w; output_path env].
    rewrite !not_elem_of_cons. repeat split; auto using not_elem_of_nil.
  - by rewrite !lookup_insert_ne.
Qed.

Lemma transform_returns_engine_text_witness :
  let t := fresh_transformer "/srv/app/local.xsl" in
  let res := transform Sample.env t (PyStr "<a/>") Sample.world0 in
  outcome res = inr (PyStr "<rdf:RDF><a/></rdf:RDF>") ∧
  files (final_world res) !! output_path Sample.env =
    Some "<rdf:RDF><a/></rdf:RDF>" ∧
  files (final_world res) !! input_raw_path Sample.env = Some "<a/>" ∧
  opened (since Sample.world0 (final_world res)) =
    [input_raw_path Sample.env; temp_file_path Sample.env Sample.world0;
     output_path Sample.env] ∧
  (error_path Sample.env ∉ opened (since Sample.world0 (final_world res))) ∧
  files (final_world res) !! error_path Sample.env =
    files Sample.world0 !! error_path Sample.env.
Proof.
  apply (transform_returns_engine_text Sample.env
           (fresh_transformer "/srv/app/local.xsl") (PyStr "<a/>") "<a/>"
           Sample.world0
           {| run_result := Some "<rdf:RDF><a/></rdf:RDF>";
              run_exception := false; run_errors := [] |}
           "<rdf:RDF><a/></rdf:RDF>");
    vm_compute; reflexivity.
Defined.

(** After a failure on an input that has a text, the diagnostic file holds
    the message of the exception and the preview of the text, the handler's
    events close the trace, and the exception that reaches the caller is the
    one that was caught. *)
Lemma failure_leaves_diagnostic env t x s w e :
  input_text env x = Some s →
  outcome (transform env t x w) = inl e →
  files (final_world (transform env t x w)) !! error_path env =
    Some (error_head e +:+ error_tail s) ∧
  ∃ before,
    since w (final_world (transform env t x w)) =
      (before ++ failure_events env e s)%list.
Proof.
  intros Hx.
  destruct (transform_path env t x w) as
    [|b e' Hd|x s' e' Hx'|x s' run Hx'|x s' run Hx'|x s' run r Hx'];
    cbn in Hx; rewrite ?Hd in Hx; try discriminate;
    try (rewrite (input_text_unique _ _ _ _ Hx' Hx)); observe;
    intros [= <-]; unfold later; cbn [files];
    (split; [by rewrite lookup_insert_eq|]).
  - exists (staging_events env t s w ++ [engine_event env t w])%list.
    by rewrite <- app_assoc.
  - exists (staging_events env t s w ++ replicate 2 (engine_event env t w) ++
            engine_error_log (run_errors run))%list.
    by rewrite <- !app_assoc.
  - exists (staging_events env t s w ++ replicate 2 (engine_event env t w) ++
            [OpenW (output_path env)])%list.
    by rewrite <- !app_assoc.
Qed.

(** The preview is the whole text when it has at most 1000 characters, and
    its first 1000 characters otherwise. *)
Lemma error_tail_short s :
  (String.length s ≤ 1000)%nat →
  error_tail s = "XML content preview:" +:+ nl +:+ s +:+ "...".
Proof. intros Hs. unfold error_tail. by rewrite slice_to_short. Qed.

Lemma error_tail_long s :
  (1000 ≤ String.length s)%nat →
  ∃ first rest,
    s = first +:+ rest ∧ String.length first = 1000%nat ∧
    error_tail s = "XML content preview:" +:+ nl +:+ first +:+ "...".
Proof.
  intros Hs. destruct (slice_to_long 1000 s Hs) as [Hl [rest Hr]].
  by exists (slice_to 1000 s), rest.
Qed.

(** C2.  Bytes that are not UTF-8: the decoding error is caught and logged,
    but the handler reads [output_dir] before line 67 has assigned it; the
    exception that reaches the caller is the [UnboundLocalError] of that read
    and not the decoding error, and no file has been opened. *)
Theorem undecodable_bytes_replace_the_error env t b e w :
  utf8_decode env b = inl e →
  exn_type e = UnicodeDecodeError →
  let res := transform env t (PyBytes b) w in
  outcome res = inl unbound_output_dir ∧
  outcome res ≠ inl e ∧
  since w (final_world res) =
    [ Log DEBUG "Starting XML transformation.";
      Log ERROR ("Failed to transform XML content: " +:+ exn_str e) ].
Proof.
  intros Hd He res. subst res. rewrite (transform_undecodable _ _ _ _ _ Hd).
  observe. repeat split. intros [= <-]. discriminate.
Qed.

Lemma undecodable_bytes_replace_the_error_witness :
  let e := Exn UnicodeDecodeError "'utf-8' codec can't decode bytes" in
  let res := transform Sample.env (fresh_transformer "/srv/app/local.xsl")
               (PyBytes [Byte.xff]) Sample.world0 in
  outcome res = inl unbound_output_dir ∧
  outcome res ≠ inl e ∧
  since Sample.world0 (final_world res) =
    [ Log DEBUG "Starting XML transformation.";
      Log ERROR ("Failed to transform XML content: " +:+ exn_str e) ].
Proof.
  apply (undecodable_bytes_replace_the_error Sample.env
           (fresh_transformer "/srv/app/local.xsl") [Byte.xff]
           (Exn UnicodeDecodeError "'utf-8' codec can't decode bytes")
           Sample.world0); reflexivity.
Defined.

(** C3.  Bytes that are not UTF-8: the call fails and no file is opened or
    written; [transformation_error.log] is as it was before the call, absent
    if it was absent. *)
Theorem undecodable_bytes_leave_no_diagnostic env t b e w :
  utf8_decode env b = inl e →
  let res := transform env t (PyBytes b) w in
  (∃ e', outcome res = inl e') ∧
  opened (since w (final_world res)) = [] ∧
  files (final_world res) = files w.
Proof.
  intros Hd res. subst res. rewrite (transform_undecodable _ _ _ _ _ Hd).
  observe. by eauto.
Qed.

Lemma undecodable_bytes_leave_no_diagnostic_witness :
  let res := transform Sample.env (fresh_transformer "/srv/app/local.xsl")
               (PyBytes [Byte.xff]) Sample.world0 in
  ((∃ e', outcome res = inl e') ∧
   opened (since Sample.world0 (final_world res)) = [] ∧
   files (final_world res) = files Sample.world0) ∧
  files Sample.world0 !! error_path Sample.env = None.
Proof.
  split.
  - apply (undecodable_bytes_leave_no_diagnostic Sample.env
             (fresh_transformer "/srv/app/local.xsl") [Byte.xff]
             (Exn UnicodeDecodeError "'utf-8' codec can't decode bytes")
             Sample.world0).
    reflexivity.
  - reflexivity.
Defined.

(** C4.  When the engine, run on the text of the input, returns with its
    exception flag set, [transform] raises the [RuntimeError] of line 107, and
    before that every message of the engine has been logged as an error, in
    order, right after the two engine runs and before the handler's log record
    and diagnostic file. *)
Theorem engine_errors_logged_before_failure env t x s w run :
  input_text env x = Some s →
  engine_answer env t s w = inr run →
  run_exception run = true →
  let res := transform env t x w in
  outcome res = inl engine_failed ∧
  since w (final_world res) =
    (staging_events env t s w ++
     [engine_event env t w; engine_event env t w] ++
     ((λ m, Log ERROR ("Error in XSLT transformation: " +:+ m)) <$>
        run_errors run) ++
     failure_events env engine_failed s)%list.
Proof.
  intros Hx Ha Hf res. subst res.
  rewrite (transform_reported _ _ _ _ _ _ Hx Ha Hf). observe. done.
Qed.

Lemma engine_errors_logged_before_failure_witness :
  let t := fresh_transformer "/srv/app/local.xsl" in
  let res := transform Sample.env t (PyStr "<a>") Sample.world0 in
  outcome res = inl engine_failed ∧
  since Sample.world0 (final_world res) =
    (staging_events Sample.env t "<a>" Sample.world0 ++
     [engine_event Sample.env t Sample.world0;
      engine_event Sample.env t Sample.world0] ++
     ((λ m, Log ERROR ("Error in XSLT transformation: " +:+ m)) <$>
        ["SXXP0003: document is not well-formed"]) ++
     failure_events Sample.env engine_failed "<a>")%list.
Proof.
  apply (engine_errors_logged_before_failure Sample.env
           (fresh_transformer "/srv/app/local.xsl") (PyStr "<a>") "<a>"
           Sample.world0
           {| run_result := None; run_exception := true;
              run_errors := ["SXXP0003: document is not well-formed"] |});
    vm_compute; reflexivity.
Defined.

(** C8.  Bytes that decode to the text [s] are handled as [s] is: the same
    result or exception, the same transformer, the same world (files, trace
    of writes, engine runs and log records). *)
Theorem bytes_behave_as_their_text env t b s w :
  utf8_decode env b = inr s →
  transform env t (PyBytes b) w = transform env t (PyStr s) w.
Proof.
  intros Hd. apply transform_decoded. cbn. by rewrite Hd.
Qed.

Lemma bytes_behave_as_their_text_witness :
  transform Sample.env (fresh_transformer "/srv/app/local.xsl")
    (PyBytes [Byte.x3c; Byte.x61; Byte.x2f; Byte.x3e]) Sample.world0 =
  transform Sample.env (fresh_transformer "/srv/app/local.xsl")
    (PyStr "<a/>") Sample.world0.
Proof.
  apply (bytes_behave_as_their_text Sample.env
           (fresh_transformer "/srv/app/local.xsl")
           [Byte.x3c; Byte.x61; Byte.x2f; Byte.x3e] "<a/>" Sample.world0).
  reflexivity.
Defined.

(** ** One run or two *)

(** The two variants agree on everything but the number of engine runs. *)
Lemma transform_once_agrees env t x w :
  outcome (transform env t x w) = outcome (transform_once env t x w) ∧
  final_self (transform env t x w) = final_self (transform_once env t x w) ∧
  files (final_world (transform env t x w)) =
    files (final_world (transform_once env t x w)) ∧
  other_events (since w (final_world (transform env t x w))) =
    other_events (since w (final_world (transform_once env t x w))).
Proof.
  destruct (input_text_cases env x) as [->|[(b & e & -> & Hd)|[s Hx]]].
  - by rewrite transform_none, transform_once_none.
  - by rewrite (transform_undecodable _ _ _ _ _ Hd),
      (transform_once_undecodable _ _ _ _ _ Hd).
  - destruct (engine_answer env t s w) as [e|run] eqn:Ha.
    { by rewrite (transform_raised _ _ _ _ _ _ Hx Ha),
        (transform_once_raised _ _ _ _ _ _ Hx Ha). }
    destruct (run_exception run) eqn:Hf.
    { rewrite (transform_reported _ _ _ _ _ _ Hx Ha Hf),
        (transform_once_reported _ _ _ _ _ _ Hx Ha Hf).
      observe. repeat split; reflexivity. }
    destruct (run_result run) as [r|] eqn:Hr.
    + rewrite (transform_success _ _ _ _ _ _ _ Hx Ha Hf Hr),
        (transform_once_success _ _ _ _ _ _ _ Hx Ha Hf Hr).
      observe. repeat split; reflexivity.
    + rewrite (transform_no_result _ _ _ _ _ _ Hx Ha Hf Hr),
        (transform_once_no_result _ _ _ _ _ _ Hx Ha Hf Hr).
      observe. repeat split; reflexivity.
Qed.

(** C9.  On an input that has a text, when the first run of the engine
    returns, [transform] runs the engine twice, the two runs are adjacent in
    the trace and have the same parameters, working directory, stylesheet
    file and source file; the single-run variant runs it once; and the two
    variants give the same result or exception, the same transformer, the
    same files and the same events other than engine runs. *)
Theorem two_engine_runs_equal_one env t x s w run :
  input_text env x = Some s →
  engine_answer env t s w = inr run →
  let two := transform env t x w in
  let one := transform_once env t x w in
  engine_runs (since w (final_world two)) =
    [engine_event env t w; engine_event env t w] ∧
  (∃ before after,
     since w (final_world two) =
       (before ++ [engine_event env t w; engine_event env t w] ++ after)%list ∧
     engine_runs before = [] ∧ engine_runs after = []) ∧
  engine_runs (since w (final_world one)) = [engine_event env t w] ∧
  outcome two = outcome one ∧
  final_self two = final_self one ∧
  files (final_world two) = files (final_world one) ∧
  other_events (since w (final_world two)) =
    other_events (since w (final_world one)).
Proof.
  intros Hx Ha two one. subst two one.
  split; [|split; [|split; [|apply transform_once_agrees]]].
  - destruct (run_exception run) eqn:Hf;
      [|destruct (run_result run) as [r|] eqn:Hr].
    + rewrite (transform_reported _ _ _ _ _ _ Hx Ha Hf). observe.
      by count_runs.
    + rewrite (transform_success _ _ _ _ _ _ _ Hx Ha Hf Hr). observe.
      by count_runs.
    + rewrite (transform_no_result _ _ _ _ _ _ Hx Ha Hf Hr). observe.
      by count_runs.
  - exists (staging_events env t s w).
    destruct (run_exception run) eqn:Hf;
      [|destruct (run_result run) as [r|] eqn:Hr].
    + rewrite (transform_reported _ _ _ _ _ _ Hx Ha Hf). observe.
      eexists. split; [reflexivity|]. by count_runs.
    + rewrite (transform_success _ _ _ _ _ _ _ Hx Ha Hf Hr). observe.
      eexists. split; [reflexivity|]. by count_runs.
    + rewrite (transform_no_result _ _ _ _ _ _ Hx Ha Hf Hr). observe.
      eexists. split; [reflexivity|]. by count_runs.
  - destruct (run_exception run) eqn:Hf;
      [|destruct (run_result run) as [r|] eqn:Hr].
    + rewrite (transform_once_reported _ _ _ _ _ _ Hx Ha Hf). observe.
      by count_runs.
    + rewrite (transform_once_success _ _ _ _ _ _ _ Hx Ha Hf Hr). observe.
      by count_runs.
    + rewrite (transform_once_no_result _ _ _ _ _ _ Hx Ha Hf Hr). observe.
      by count_runs.
Qed.

Lemma two_engine_runs_equal_one_witness :
  let t := fresh_transformer "/srv/app/local.xsl" in
  let two := transform Sample.env t (PyStr "<a/>") Sample.world0 in
  let one := transform_once Sample.env t (PyStr "<a/>") Sample.world0 in
  engine_runs (since Sample.world0 (final_world two)) =
    [engine_event Sample.env t Sample.world0;
     engine_event Sample.env t Sample.world0] ∧
  (∃ before after,
     since Sample.world0 (final_world two) =
       (before ++ [engine_event Sample.env t Sample.world0;
                   engine_event Sample.env t Sample.world0] ++ after)%list ∧
     engine_runs before = [] ∧ engine_runs after = []) ∧
  engine_runs (since Sample.world0 (final_world one)) =
    [engine_event Sample.env t Sample.world0] ∧
  outcome two = outcome one ∧
  final_self two = final_self one ∧
  files (final_world two) = files (final_world one) ∧
  other_events (since Sample.world0 (final_world two)) =
    other_events (since Sample.world0 (final_world one)).
Proof.
  apply (two_engine_runs_equal_one Sample.env
           (fresh_transformer "/srv/app/local.xsl") (PyStr "<a/>") "<a/>"
           Sample.world0
           {| run_result := Some "<rdf:RDF><a/></rdf:RDF>";
              run_exception := false; run_errors := [] |});
    vm_compute; reflexivity.
Defined.

(** ** One call after another *)

Lemma transform_keeps_stylesheet env t x w :
  xslt_path (final_self (transform env t x w)) = xslt_path t.
Proof. by destruct (transform_path env t x w). Qed.

(** Lines 76 to 81 replace the processor: on an input that has a text, what
    the processor held before the call has no influence at all. *)
Lemma transform_text_ignores_engine env t t' x s w :
  input_text env x = Some s →
  xslt_path t = xslt_path t' →
  transform env t x w = transform env t' x w.
Proof.
  intros Hx Hp. rewrite !(transform_decoded _ _ _ _ _ Hx).
  destruct t as [p pr xp], t' as [p' pr' xp']. cbn in Hp. subst p'.
  expose. run. reflexivity.
Qed.

Lemma transform_ignores_engine env t t' x w :
  xslt_path t = xslt_path t' →
  outcome (transform env t x w) = outcome (transform env t' x w) ∧
  final_world (transform env t x w) = final_world (transform env t' x w).
Proof.
  intros Hp.
  destruct (input_text_cases env x) as [->|[(b & e & -> & Hd)|[s Hx]]].
  - by rewrite !transform_none.
  - by rewrite !(transform_undecodable _ _ _ _ _ Hd).
  - by rewrite (transform_text_ignores_engine _ _ _ _ _ _ Hx Hp).
Qed.

(** C10.  When two calls on one transformer both return, the output file
    holds the second result and nothing of the first; the second call gives
    the result and leaves the world that it would with the transformer as it
    was before the first call, and the processor it leaves holds the report of
    the second run only. *)
Theorem second_call_overwrites_output env t x1 x2 w r1 r2 :
  outcome (transform env t x1 w) = inr (PyStr r1) →
  outcome (transform env (final_self (transform env t x1 w)) x2
             (final_world (transform env t x1 w))) = inr (PyStr r2) →
  let first := transform env t x1 w in
  let second := transform env (final_self first) x2 (final_world first) in
  files (final_world first) !! output_path env = Some r1 ∧
  files (final_world second) !! output_path env = Some r2 ∧
  outcome second = outcome (transform env t x2 (final_world first)) ∧
  final_world second = final_world (transform env t x2 (final_world first)) ∧
  exception_occurred (xslt_processor (final_self second)) = false.
Proof.
  intros H1 H2 first second. subst first second.
  assert (files (final_world (transform env t x1 w)) !! output_path env =
          Some r1) as Hfirst.
  { revert H1. destruct (transform_path env t x1 w); observe;
      intros [= <-]. unfold later. cbn [files]. by rewrite lookup_insert_eq. }
  split; [done|].
  pose proof (transform_keeps_stylesheet env t x1 w) as Hp.
  destruct (transform_ignores_engine env _ _ x2
              (final_world (transform env t x1 w)) Hp) as [<- <-].
  revert H2. generalize (final_self (transform env t x1 w)).
  generalize (final_world (transform env t x1 w)). intros w1 t1.
  destruct (transform_path env t1 x2 w1); observe; intros [= <-].
  unfold later. cbn [files]. by rewrite lookup_insert_eq.
Qed.

Lemma second_call_overwrites_output_witness :
  let t := fresh_transformer "/srv/app/local.xsl" in
  let first := transform Sample.env t (PyStr "<a/>") Sample.world0 in
  let second := transform Sample.env (final_self first) (PyStr "<b/>")
                  (final_world first) in
  files (final_world first) !! output_path Sample.env =
    Some "<rdf:RDF><a/></rdf:RDF>" ∧
  files (final_world second) !! output_path Sample.env =
    Some "<rdf:RDF><b/></rdf:RDF>" ∧
  outcome second =
    outcome (transform Sample.env t (PyStr "<b/>") (final_world first)) ∧
  final_world second =
    final_world (transform Sample.env t (PyStr "<b/>") (final_world first)) ∧
  exception_occurred (xslt_processor (final_self second)) = false.
Proof.
  apply (second_call_overwrites_output Sample.env
           (fresh_transformer "/srv/app/local.xsl") (PyStr "<a/>")
           (PyStr "<b/>") Sample.world0 "<rdf:RDF><a/></rdf:RDF>"
           "<rdf:RDF><b/></rdf:RDF>");
    vm_compute; reflexivity.
Defined.

(** * Further properties of [transform] *)

(** X1.  [transform] returns exactly when its input has a text and the
    engine, run on it, returns a text without reporting an exception; what it
    returns is then that text. *)
Theorem transform_returns_iff env t x w v :
  outcome (transform env t x w) = inr v ↔
  ∃ s run r,
    input_text env x = Some s ∧ engine_answer env t s w = inr run ∧
    run_exception run = false ∧ run_result run = Some r ∧ v = PyStr r.
Proof.
  split.
  - destruct (transform_path env t x w) as
      [|b e Hd|x s e Hx|x s run Hx|x s run Hx|x s run r Hx Ha Hf Hr];
      observe; intros [= <-]. by exists s, run, r.
  - intros (s & run & r & Hx & Ha & Hf & Hr & ->).
    by rewrite (transform_success _ _ _ _ _ _ _ Hx Ha Hf Hr).
Qed.

Lemma length_slice_to (n : nat) (s : string) :
  String.length (slice_to n s) = (n `min` String.length s)%nat.
Proof.
  destruct (Nat.le_ge_cases n (String.length s)) as [H|H].
  - destruct (slice_to_long n s H) as [-> _]. lia.
  - rewrite slice_to_short by done. lia.
Qed.

(** X2.  When a call on an input that has a text fails, the exception that
    reaches the caller is the one the handler caught; the diagnostic file
    holds its message, then the first 1000 characters of the text (all of it
    when it is shorter), then three dots in both cases; and the handler's log
    record and writes are the last events of the call. *)
Theorem failure_is_reported_and_reraised env t x s w e :
  input_text env x = Some s →
  outcome (transform env t x w) = inl e →
  let res := transform env t x w in
  files (final_world res) !! error_path env =
    Some (("Error: " +:+ exn_str e +:+ nl) +:+
          ("XML content preview:" +:+ nl +:+ slice_to 1000 s +:+ "...")) ∧
  String.length (slice_to 1000 s) = (1000 `min` String.length s)%nat ∧
  (∃ rest, s = slice_to 1000 s +:+ rest) ∧
  ∃ before,
    since w (final_world res) =
      (before ++
       [ Log ERROR ("Failed to transform XML content: " +:+ exn_str e);
         OpenW (error_path env);
         WriteFile (error_path env) ("Error: " +:+ exn_str e +:+ nl);
         WriteFile (error_path env)
           ("XML content preview:" +:+ nl +:+ slice_to 1000 s +:+ "...") ])%list.
Proof.
  intros Hx He res. subst res.
  destruct (failure_leaves_diagnostic env t x s w e Hx He) as [Hlog Htrace].
  split; [exact Hlog|]. split; [apply length_slice_to|]. split; [|exact Htrace].
  destruct (Nat.le_ge_cases 1000 (String.length s)) as [H|H].
  - by destruct (slice_to_long 1000 s H) as [_ ?].
  - exists "". rewrite slice_to_short by done. clear.
    induction s as [|c s IH]; [done|].
    change (String c s +:+ "") with (String c (s +:+ "")). by rewrite <- IH.
Qed.

Lemma failure_is_reported_and_reraised_witness :
  let t := fresh_transformer "/srv/app/local.xsl" in
  let e := engine_failed in
  let s := "<a>" in
  let res := transform Sample.env t (PyStr "<a>") Sample.world0 in
  files (final_world res) !! error_path Sample.env =
    Some (("Error: " +:+ exn_str e +:+ nl) +:+
          ("XML content preview:" +:+ nl +:+ slice_to 1000 s +:+ "...")) ∧
  String.length (slice_to 1000 s) = (1000 `min` String.length s)%nat ∧
  (∃ rest, s = slice_to 1000 s +:+ rest) ∧
  ∃ before,
    since Sample.world0 (final_world res) =
      (before ++
       [ Log ERROR ("Failed to transform XML content: " +:+ exn_str e);
         OpenW (error_path Sample.env);
         WriteFile (error_path Sample.env) ("Error: " +:+ exn_str e +:+ nl);
         WriteFile (error_path Sample.env)
           ("XML content preview:" +:+ nl +:+ slice_to 1000 s +:+ "...") ])%list.
Proof.
  apply (failure_is_reported_and_reraised Sample.env
           (fresh_transformer "/srv/app/local.xsl") (PyStr "<a>") "<a>"
           Sample.world0 engine_failed); vm_compute; reflexivity.
Defined.

(** X3.  When the engine raises a Python exception in its first run,
    [transform] does not run it again, lets that very exception reach the
    caller after the diagnostic has been written, and does not open
    [transformed_output.rdf], which keeps what it held. *)
Theorem engine_exception_propagates env t x s w e :
  input_text env x = Some s →
  engine_answer env t s w = inl e →
  let res := transform env t x w in
  outcome res = inl e ∧
  engine_runs (since w (final_world res)) = [engine_event env t w] ∧
  opened (since w (final_world res)) =
    [input_raw_path env; temp_file_path env w; error_path env] ∧
  files (final_world res) !! output_path env = files w !! output_path env ∧
  files (final_world res) !! error_path env =
    Some (error_head e +:+ error_tail s).
Proof.
  intros Hx Ha res. subst res.
  rewrite (transform_raised _ _ _ _ _ _ Hx Ha). observe.
  unfold later, staged. cbn [files].
  pose proof (error_path_not_output env).
  pose proof (output_path_not_input_raw env).
  assert (output_path env ≠ temp_file_path env w).
  { eapply differ_by_last_char;
      [apply last_char_output_path | apply last_char_temp_file_path | done]. }
  split; [done|]. split; [by count_runs|]. split; [reflexivity|].
  split; [by rewrite !lookup_insert_ne|]. by rewrite lookup_insert_eq.
Qed.

Lemma engine_exception_propagates_witness :
  let t := fresh_transformer "/srv/app/missing.xsl" in
  let e := Exn PySaxonApiError "file not found" in
  let res := transform Sample.env t (PyStr "<a/>") Sample.world0 in
  outcome res = inl e ∧
  engine_runs (since Sample.world0 (final_world res)) =
    [engine_event Sample.env t Sample.world0] ∧
  opened (since Sample.world0 (final_world res)) =
    [input_raw_path Sample.env; temp_file_path Sample.env Sample.world0;
     error_path Sample.env] ∧
  files (final_world res) !! output_path Sample.env =
    files Sample.world0 !! output_path Sample.env ∧
  files (final_world res) !! error_path Sample.env =
    Some (error_head e +:+ error_tail "<a/>").
Proof.
  apply (engine_exception_propagates Sample.env
           (fresh_transformer "/srv/app/missing.xsl") (PyStr "<a/>") "<a/>"
           Sample.world0 (Exn PySaxonApiError "file not found"));
    vm_compute; reflexivity.
Defined.

(** X4.  When the engine returns with its exception flag set, the output file
    is not opened either: after the [RuntimeError] it holds what it held
    before the call, a result of an earlier call if there was one. *)
Theorem reported_failure_keeps_old_output env t x s w run :
  input_text env x = Some s →
  engine_answer env t s w = inr run →
  run_exception run = true →
  let res := transform env t x w in
  opened (since w (final_world res)) =
    [input_raw_path env; temp_file_path env w; error_path env] ∧
  files (final_world res) !! output_path env = files w !! output_path env.
Proof.
  intros Hx Ha Hf res. subst res.
  rewrite (transform_reported _ _ _ _ _ _ Hx Ha Hf). observe.
  unfold later, staged. cbn [files].
  pose proof (error_path_not_output env).
  pose proof (output_path_not_input_raw env).
  assert (output_path env ≠ temp_file_path env w).
  { eapply differ_by_last_char;
      [apply last_char_output_path | apply last_char_temp_file_path | done]. }
  split; [|by rewrite !lookup_insert_ne].
  unfold opened. rewrite !omap_app. unfold engine_error_log.
  assert (∀ l : list string,
            omap (λ ev, match ev with OpenW p => Some p | _ => None end)
              ((λ m, Log ERROR ("Error in XSLT transformation: " +:+ m)) <$> l)
            = []) as ->; [by induction l|].
  reflexivity.
Qed.

Lemma reported_failure_keeps_old_output_witness :
  let t := fresh_transformer "/srv/app/local.xsl" in
  let first := transform Sample.env t (PyStr "<a/>") Sample.world0 in
  let res := transform Sample.env (final_self first) (PyStr "<a>")
               (final_world first) in
  (opened (since (final_world first) (final_world res)) =
     [input_raw_path Sample.env;
      temp_file_path Sample.env (final_world first);
      error_path Sample.env] ∧
   files (final_world res) !! output_path Sample.env =
     files (final_world first) !! output_path Sample.env) ∧
  files (final_world first) !! output_path Sample.env =
    Some "<rdf:RDF><a/></rdf:RDF>".
Proof.
  split; [|vm_compute; reflexivity].
  apply (reported_failure_keeps_old_output Sample.env
           (final_self (transform Sample.env
                          (fresh_transformer "/srv/app/local.xsl")
                          (PyStr "<a/>") Sample.world0))
           (PyStr "<a>") "<a>"
           (final_world (transform Sample.env
                           (fresh_transformer "/srv/app/local.xsl")
                           (PyStr "<a/>") Sample.world0))
           {| run_result := None; run_exception := true;
              run_errors := ["SXXP0003: document is not well-formed"] |});
    vm_compute; reflexivity.
Defined.

(** X5.  When the engine returns [None] without setting its exception flag,
    the output file has been opened, and so emptied, before [write] refuses
    the value: the call raises [TypeError], the diagnostic is written, and
    [transformed_output.rdf] is left empty. *)
Theorem missing_result_empties_output env t x s w run :
  input_text env x = Some s →
  engine_answer env t s w = inr run →
  run_exception run = false →
  run_result run = None →
  let res := transform env t x w in
  outcome res = inl (Exn TypeError "write() argument must be str, not None") ∧
  files (final_world res) !! output_path env = Some "" ∧
  files (final_world res) !! error_path env =
    Some (error_head not_text +:+ error_tail s).
Proof.
  intros Hx Ha Hf Hr res. subst res.
  rewrite (transform_no_result _ _ _ _ _ _ Hx Ha Hf Hr). observe.
  unfold later. cbn [files].
  pose proof (error_path_not_output env).
  split; [done|]. split; [|by rewrite lookup_insert_eq].
  rewrite lookup_insert_ne by done. by rewrite lookup_insert_eq.
Qed.

Lemma missing_result_empties_output_witness :
  let t := fresh_transformer "/srv/app/local.xsl" in
  let res := transform Mute.env t (PyStr "<a/>") Sample.world0 in
  outcome res = inl (Exn TypeError "write() argument must be str, not None") ∧
  files (final_world res) !! output_path Mute.env = Some "" ∧
  files (final_world res) !! error_path Mute.env =
    Some (error_head not_text +:+ error_tail "<a/>").
Proof.
  apply (missing_result_empties_output Mute.env
           (fresh_transformer "/srv/app/local.xsl") (PyStr "<a/>") "<a/>"
           Sample.world0
           {| run_result := None; run_exception := false; run_errors := [] |});
    reflexivity.
Defined.

Lemma temp_file_path_not_output env w :
  temp_file_path env w ≠ output_path env.
Proof.
  eapply differ_by_last_char;
    [apply last_char_temp_file_path | apply last_char_output_path | done].
Qed.

(** X6.  Whatever the outcome, a call on an input that has a text leaves that
    text in [input_raw.xml] and in a new temporary file that it does not
    delete, advances the temporary-file counter by one, has created the
    output directory, and has written both files before the first engine
    run. *)
Theorem input_is_saved_before_the_engine_runs env t x s w :
  input_text env x = Some s →
  let res := transform env t x w in
  files (final_world res) !! input_raw_path env = Some s ∧
  files (final_world res) !! temp_file_path env w = Some s ∧
  temp_seq (final_world res) = S (temp_seq w) ∧
  output_dir_path env ∈ dirs (final_world res) ∧
  ∃ rest,
    since w (final_world res) =
      ([ Log DEBUG "Starting XML transformation.";
         Makedirs (output_dir_path env);
         OpenW (input_raw_path env); WriteFile (input_raw_path env) s;
         OpenW (temp_file_path env w); WriteFile (temp_file_path env w) s;
         Log DEBUG ("Starting XSLT transformation with:" +:+ nl +:+
                    "  Source: " +:+ temp_file_path env w +:+ nl +:+
                    "  XSLT: " +:+ xslt_path t);
         engine_event env t w ] ++ rest)%list.
Proof.
  intros Hx res. subst res.
  pose proof (error_path_not_input_raw env).
  pose proof (error_path_not_temp env w).
  pose proof (output_path_not_input_raw env).
  pose proof (temp_file_path_not_output env w).
  assert (∀ fs : gmap string string,
            <[temp_file_path env w := s]> (<[input_raw_path env := s]> fs)
              !! input_raw_path env = Some s) as Hraw.
  { intros fs.
    destruct (decide (temp_file_path env w = input_raw_path env)) as [->|];
      [by rewrite lookup_insert_eq|].
    rewrite lookup_insert_ne by done. by rewrite lookup_insert_eq. }
  assert (∀ fs : gmap string string,
            <[temp_file_path env w := s]> (<[input_raw_path env := s]> fs)
              !! temp_file_path env w = Some s) as Htmp.
  { intros fs. by rewrite lookup_insert_eq. }
  destruct (transform_path env t x w) as
    [|b e Hd|x s' e Hx'|x s' run Hx'|x s' run Hx'|x s' run r Hx'];
    cbn in Hx; rewrite ?Hd in Hx; try discriminate;
    rewrite (input_text_unique _ _ _ _ Hx' Hx); observe;
    unfold later, staged; cbn [files temp_seq dirs];
    rewrite ?Nat.add_1_r;
    rewrite ?(lookup_insert_ne _ (error_path env)),
      ?(lookup_insert_ne _ (output_path env))
      by (done || by apply not_eq_sym);
    rewrite Hraw, Htmp; (repeat split; [set_solver|]); by eexists.
Qed.

Lemma input_is_saved_before_the_engine_runs_witness :
  let t := fresh_transformer "/srv/app/local.xsl" in
  let s := "<a>" in
  let w := Sample.world0 in
  let res := transform Sample.env t (PyStr "<a>") Sample.world0 in
  files (final_world res) !! input_raw_path Sample.env = Some s ∧
  files (final_world res) !! temp_file_path Sample.env w = Some s ∧
  temp_seq (final_world res) = S (temp_seq w) ∧
  output_dir_path Sample.env ∈ dirs (final_world res) ∧
  ∃ rest,
    since w (final_world res) =
      ([ Log DEBUG "Starting XML transformation.";
         Makedirs (output_dir_path Sample.env);
         OpenW (input_raw_path Sample.env);
         WriteFile (input_raw_path Sample.env) s;
         OpenW (temp_file_path Sample.env w);
         WriteFile (temp_file_path Sample.env w) s;
         Log DEBUG ("Starting XSLT transformation with:" +:+ nl +:+
                    "  Source: " +:+ temp_file_path Sample.env w +:+ nl +:+
                    "  XSLT: " +:+ xslt_path t);
         engine_event Sample.env t w ] ++ rest)%list.
Proof.
  apply (input_is_saved_before_the_engine_runs Sample.env
           (fresh_transformer "/srv/app/local.xsl") (PyStr "<a>") "<a>"
           Sample.world0).
  reflexivity.
Defined.

(** X7.  A call changes no file other than [input_raw.xml], the temporary
    source file, [transformed_output.rdf] and [transformation_error.log]. *)
Theorem transform_touches_four_files env t x w p :
  p ≠ input_raw_path env →
  p ≠ temp_file_path env w →
  p ≠ output_path env →
  p ≠ error_path env →
  files (final_world (transform env t x w)) !! p = files w !! p.
Proof.
  intros H1 H2 H3 H4.
  destruct (transform_path env t x w); observe; unfold later, staged;
    cbn [files]; by rewrite ?lookup_insert_ne by (by apply not_eq_sym).
Qed.

Lemma transform_touches_four_files_witness :
  files (final_world (transform Sample.env
                        (fresh_transformer "/srv/app/local.xsl")
                        (PyStr "<a>") Sample.world0))
    !! "/srv/app/local.xsl" =
  files Sample.world0 !! "/srv/app/local.xsl".
Proof.
  apply (transform_touches_four_files Sample.env
           (fresh_transformer "/srv/app/local.xsl") (PyStr "<a>")
           Sample.world0 "/srv/app/local.xsl");
    vm_compute; discriminate.
Defined.

(** X8.  A call removes no file and no directory, and leaves the
    transformer's stylesheet path as it was. *)
Theorem transform_removes_nothing env t x w p c :
  files w !! p = Some c →
  let res := transform env t x w in
  is_Some (files (final_world res) !! p) ∧
  dirs w ⊆ dirs (final_world res) ∧
  xslt_path (final_self res) = xslt_path t.
Proof.
  intros Hp res. subst res.
  assert (∀ (k v : string) (fs : gmap string string),
            is_Some (fs !! p) → is_Some (<[k := v]> fs !! p)) as Hkeep.
  { intros k v fs Hfs. destruct (decide (k = p)) as [->|];
      [rewrite lookup_insert_eq; eauto | by rewrite lookup_insert_ne]. }
  assert (is_Some (files w !! p)) as Hw by eauto.
  destruct (transform_path env t x w); observe; unfold later, staged;
    cbn [files dirs xslt_path configured];
    (split; [auto 6|]); (split; [set_solver|done]).
Qed.

Lemma transform_removes_nothing_witness :
  let res := transform Sample.env (fresh_transformer "/srv/app/local.xsl")
               (PyStr "<a>") Sample.world0 in
  is_Some (files (final_world res) !! "/srv/app/local.xsl") ∧
  dirs Sample.world0 ⊆ dirs (final_world res) ∧
  xslt_path (final_self res) =
    xslt_path (fresh_transformer "/srv/app/local.xsl").
Proof.
  apply (transform_removes_nothing Sample.env
           (fresh_transformer "/srv/app/local.xsl") (PyStr "<a>")
           Sample.world0 "/srv/app/local.xsl" "<xsl:stylesheet/>").
  reflexivity.
Defined.

(** X9.  The engine is run twice when the input has a text and the first run
    returns, once when the first run raises, and not at all when the input
    has no text. *)
Theorem engine_run_count env t x w :
  length (engine_runs (since w (final_world (transform env t x w)))) =
    match input_text env x with
    | None => 0
    | Some s =>
        match engine_answer env t s w with inl _ => 1 | inr _ => 2 end
    end%nat.
Proof.
  destruct (transform_path env t x w) as
    [|b e Hd|x s e Hx Ha|x s run Hx Ha|x s run Hx Ha|x s run r Hx Ha];
    observe; count_runs; rewrite ?Hx, ?Ha; cbn [input_text];
    rewrite ?Hd; reflexivity.
Qed.

(** * Further properties of the constructor *)

(** X10.  The cache is not keyed by the URL: once a construction from one
    URL has succeeded, a construction from any other http or https URL
    returns the same transformer on the same cached file, fetches nothing and
    does not ask whether that URL can be reached. *)
Theorem cache_serves_every_url env url1 url2 w t w1 :
  is_url url1 = true →
  is_url url2 = true →
  init env url1 w = (inr t, w1) →
  let again := init env url2 w1 in
  again.1 = inr t ∧
  fetched (since w1 again.2) = [] ∧
  files again.2 = files w1.
Proof.
  intros Hu1 Hu2 Hb again. subst again.
  assert (∃ c, files w1 !! LOCAL_XSL_PATH env = Some c ∧
               t = fresh_transformer (LOCAL_XSL_PATH env)) as (c & Hc & ->).
  { destruct (init_construction env url1 w) as [|? ?|c ? Hf|c ? Hf ?|e];
      try congruence; injection Hb as <- <-; exists c; cbn; [done|].
    by rewrite lookup_insert_eq. }
  destruct (init_construction env url2 w1) as [|? ?|c' ? Hf|c' ? Hf ?|e];
    try congruence; cbn [fst snd]; by rewrite since_later.
Qed.

Lemma cache_serves_every_url_witness :
  let first := init Sample.env Sample.stylesheet_url Sample.world0 in
  let again := init Sample.env "http://unreachable.example/other.xsl"
                 first.2 in
  (again.1 = inr (fresh_transformer (LOCAL_XSL_PATH Sample.env)) ∧
   fetched (since first.2 again.2) = [] ∧
   files again.2 = files first.2) ∧
  remote Sample.env "http://unreachable.example/other.xsl" =
    inl (Exn URLError "<urlopen error>").
Proof.
  split; [|reflexivity].
  apply (cache_serves_every_url Sample.env Sample.stylesheet_url
           "http://unreachable.example/other.xsl" Sample.world0);
    vm_compute; reflexivity.
Defined.





(** * Properties of the script *)

Ltac run_main :=
  unfold main, urlopen, in_process, call_transform;
  cbv [mbind M_bind mret M_ret modify lift_result raise proc_world requests].

Lemma since_later_later env w fs made temps evs fs' made' temps' evs' :
  since w (later env (later env w fs made temps evs) fs' made' temps' evs') =
    (evs ++ evs')%list.
Proof.
  unfold since, later. cbn. rewrite <- app_assoc. apply drop_app_length.
Qed.

Lemma fetched_app (l k : list event) :
  fetched (l ++ k)%list = (fetched l ++ fetched k)%list.
Proof. apply omap_app. Qed.

Lemma fetched_engine_error_log msgs : fetched (engine_error_log msgs) = [].
Proof. induction msgs; [done|]. cbn. done. Qed.

(** The files after a call that returns. *)
Lemma files_after_success env s w r :
  <[output_path env := r]> (staged env s w) !! output_path env = Some r ∧
  <[output_path env := r]> (staged env s w) !! input_raw_path env = Some s.
Proof.
  pose proof (output_path_not_input_raw env).
  split; [by rewrite lookup_insert_eq|].
  rewrite lookup_insert_ne by done. unfold staged.
  destruct (decide (temp_file_path env w = input_raw_path env)) as [->|];
    [by rewrite lookup_insert_eq|].
  rewrite lookup_insert_ne by done. by rewrite lookup_insert_eq.
Qed.

(** A call of [transform] starts from the world it is given and adds events to
    its trace, none of them a download. *)
Lemma transform_extends_trace env t x w :
  ∃ fs made temps evs,
    final_world (transform env t x w) = later env w fs made temps evs ∧
    fetched evs = [].
Proof.
  destruct (transform_path env t x w); observe; do 4 eexists;
    (split; [reflexivity|]);
    rewrite ?fetched_app, ?fetched_engine_error_log; reflexivity.
Qed.

Lemma transform_removes_nothing_files env t x w p c :
  files w !! p = Some c →
  is_Some (files (final_world (transform env t x w)) !! p).
Proof.
  intros Hp.
  assert (∀ (k v : string) (fs : gmap string string),
            is_Some (fs !! p) → is_Some (<[k := v]> fs !! p)) as Hkeep.
  { intros k v fs Hfs. destruct (decide (k = p)) as [->|];
      [rewrite lookup_insert_eq; eauto | by rewrite lookup_insert_ne]. }
  assert (is_Some (files w !! p)) as Hw by eauto.
  destruct (transform_path env t x w); observe; unfold later, staged;
    cbn [files]; auto 6.
Qed.

(** X13.  When the document is downloaded, the transformer is built, the
    bytes decode and the engine returns a text without reporting an
    exception, the script ends with that text as [rdf_result], has made one
    [urlopen] request, without certificate verification, and leaves the text
    in [transformed_output.rdf] and the decoded document in
    [input_raw.xml]. *)
Theorem script_end_to_end env host st b t w1 s run r :
  urlopen_read host (XML_URL host) create_unverified_context = inr b →
  init env (XSL_URL host) (proc_world st) = (inr t, w1) →
  utf8_decode env b = inr s →
  engine_answer env t s w1 = inr run →
  run_exception run = false →
  run_result run = Some r →
  let res := main env host st in
  res.1 = inr (configured t false (run_errors run), PyStr r) ∧
  requests res.2 =
    (requests st ++
     [(XML_URL host, {| check_hostname := false; verify_mode := CERT_NONE |})])%list ∧
  files (proc_world res.2) !! output_path env = Some r ∧
  files (proc_world res.2) !! input_raw_path env = Some s.
Proof.
  intros Hb Hi Hd Ha Hf Hr res. subst res.
  assert (input_text env (PyBytes b) = Some s) as Hx by (cbn; by rewrite Hd).
  destruct (files_after_success env s w1 r) as [Hout Hraw].
  destruct st as [w0 reqs]. cbn [proc_world requests] in *.
  run_main. rewrite Hb, Hi.
  by rewrite (transform_success _ _ _ _ _ _ _ Hx Ha Hf Hr).
Qed.

Lemma script_end_to_end_witness :
  let res := main Sample.env SampleHost.host SampleHost.start in
  res.1 = inr (configured (fresh_transformer (LOCAL_XSL_PATH Sample.env))
                 false [],
               PyStr "<rdf:RDF><a/></rdf:RDF>") ∧
  requests res.2 =
    (requests SampleHost.start ++
     [(XML_URL SampleHost.host,
       {| check_hostname := false; verify_mode := CERT_NONE |})])%list ∧
  files (proc_world res.2) !! output_path Sample.env =
    Some "<rdf:RDF><a/></rdf:RDF>" ∧
  files (proc_world res.2) !! input_raw_path Sample.env = Some "<a/>".
Proof.
  apply (script_end_to_end Sample.env SampleHost.host SampleHost.start
           SampleHost.document
           (fresh_transformer (LOCAL_XSL_PATH Sample.env))
           (init Sample.env Sample.stylesheet_url Sample.world0).2
           "<a/>"
           {| run_result := Some "<rdf:RDF><a/></rdf:RDF>";
              run_exception := false; run_errors := [] |}
           "<rdf:RDF><a/></rdf:RDF>");
    vm_compute; reflexivity.
Defined.

(** X14.  After a run of the script that ended well with the stylesheet
    given as a URL, another run asks for the document again but fetches no
    stylesheet, however it ends. *)
Theorem script_fetches_stylesheet_once env host st v :
  is_url (XSL_URL host) = true →
  (main env host st).1 = inr v →
  let st1 := (main env host st).2 in
  let st2 := (main env host st1).2 in
  fetched (since (proc_world st1) (proc_world st2)) = [] ∧
  requests st2 =
    (requests st ++ [(XML_URL host, create_unverified_context);
                     (XML_URL host, create_unverified_context)])%list.
Proof.
  intros Hu Hv st1 st2. subst st2 st1.
  destruct st as [w0 reqs]. revert Hv. run_main.
  destruct (urlopen_read host (XML_URL host) create_unverified_context)
    as [e|b] eqn:Hb; [discriminate|].
  destruct (init env (XSL_URL host) w0) as [[e|t] w1] eqn:Hi; [discriminate|].
  destruct (transform env t (PyBytes b) w1) as [[[e|v'] t'] w2] eqn:Ht;
    [discriminate|]. intros _. cbn [fst snd].
  assert (is_Some (files w1 !! LOCAL_XSL_PATH env)) as [c Hc].
  { destruct (init_construction env (XSL_URL host) w0)
      as [|? ?|c ? Hf|c ? Hf ?|e]; try congruence; injection Hi as <- <-;
      cbn; [by eauto|]. rewrite lookup_insert_eq. by eauto. }
  assert (is_Some (files w2 !! LOCAL_XSL_PATH env)) as [c2 Hc2].
  { pose proof (transform_removes_nothing_files env t (PyBytes b) w1
                  (LOCAL_XSL_PATH env) c Hc) as Hk.
    by rewrite Ht in Hk. }
  pose proof (init_construction env (XSL_URL host) w2) as Hi2.
  destruct Hi2 as [|? ?|c' ? Hf|c' ? Hf ?|e]; try congruence.
  cbn [fst snd].
  destruct (transform_extends_trace env
              (fresh_transformer (LOCAL_XSL_PATH env)) (PyBytes b)
              (later env w2 (files w2) false 0
                 [ Log DEBUG ("Initializing XSLTTransformer with xslt_file: "
                              +:+ XSL_URL host);
                   Log DEBUG "XSLTTransformer initialized successfully." ]))
    as (fs & made & temps & evs & Hw & Hfetch).
  unfold final_world in Hw.
  destruct (transform env _ (PyBytes b) (later env w2 _ _ _ _))
    as [[r3 t3] w3]. cbn [fst snd] in *. subst w3.
  split; [|by rewrite <- app_assoc].
  by rewrite since_later_later, fetched_app, Hfetch.
Qed.

Lemma script_fetches_stylesheet_once_witness :
  let st1 := (main Sample.env SampleHost.host SampleHost.start).2 in
  let st2 := (main Sample.env SampleHost.host st1).2 in
  (fetched (since (proc_world st1) (proc_world st2)) = [] ∧
   requests st2 =
     (requests SampleHost.start ++
      [(XML_URL SampleHost.host, create_unverified_context);
       (XML_URL SampleHost.host, create_unverified_context)])%list) ∧
  fetched (since (proc_world SampleHost.start) (proc_world st1)) =
    [Sample.stylesheet_url].
Proof.
  split; [|vm_compute; reflexivity].
  apply (script_fetches_stylesheet_once Sample.env SampleHost.host
           SampleHost.start
           (configured (fresh_transformer (LOCAL_XSL_PATH Sample.env))
              false [],
            PyStr "<rdf:RDF><a/></rdf:RDF>"));
    vm_compute; reflexivity.
Defined.

(** * The directory of the cached stylesheet *)

Lemma lstrip_app_all (p : ascii → bool) (l k : list ascii) :
  forallb p l = true → lstrip p (l ++ k)%list = lstrip p k.
Proof.
  induction l as [|c l IH]; [done|]. cbn.
  destruct (p c); [exact IH | discriminate].
Qed.

Lemma lstrip_head (p : ascii → bool) (l : list ascii) :
  match lstrip p l with [] => True | c :: _ => p c = false end.
Proof.
  induction l as [|c l IH]; [done|]. cbn.
  destruct (p c) eqn:Hc; [exact IH | exact Hc].
Qed.

Lemma forallb_rev (p : ascii → bool) (l : list ascii) :
  forallb p (rev l) = forallb p l.
Proof.
  induction l as [|c l IH]; [done|]. cbn.
  rewrite forallb_app, IH. cbn. destruct (p c), (forallb p l); reflexivity.
Qed.

Lemma chars_text (l : list ascii) : chars (text l) = l.
Proof. apply list_ascii_of_string_of_list_ascii. Qed.

Lemma text_chars (s : string) : text (chars s) = s.
Proof. apply string_of_list_ascii_of_string. Qed.

(** What [os.path.dirname] returns consists of separators only (or is empty)
    or does not end with a separator. *)
Lemma dirname_shape (file : string) :
  forallb is_sep (chars (dirname file)) = true ∨
  ∃ c l, rev (chars (dirname file)) = c :: l ∧ is_sep c = false.
Proof.
  unfold dirname.
  set (hr := lstrip (λ c, negb (is_sep c)) (rev (chars file))).
  destruct (forallb is_sep hr) eqn:Hall.
  - left. by rewrite chars_text, forallb_rev.
  - pose proof (lstrip_head is_sep hr) as Hh.
    destruct (lstrip is_sep hr) as [|c l]; [by left|].
    right. exists c, l. by rewrite chars_text, rev_involutive.
Qed.

(** Joining a directory that [dirname] returned with the name of the cache
    file and taking [dirname] again gives that directory back. *)
Lemma dirname_LOCAL_XSL_PATH env file :
  script_dir env = dirname file →
  dirname (LOCAL_XSL_PATH env) = script_dir env.
Proof.
  intros Hd. unfold LOCAL_XSL_PATH. rewrite Hd.
  pose proof (dirname_shape file) as Hs. revert Hs.
  generalize (dirname file). intros d Hs.
  set (name := "iso19139-to-geodcatap.xsl").
  assert (forallb (λ c, negb (is_sep c)) (rev (chars name)) = true) as Hname
    by reflexivity.
  destruct Hs as [Hall|(c & l & Hrev & Hc)].
  - assert (path_join d name = d +:+ name) as ->.
    { unfold path_join. change (startswith name "/") with false. cbn match.
      destruct (String.eqb d "") eqn:He; [done|].
      unfold endswith_sep. rewrite <- forallb_rev in Hall.
      destruct (rev (chars d)) as [|c l] eqn:Hr.
      - apply (f_equal (@rev ascii)) in Hr. rewrite rev_involutive in Hr.
        cbn in Hr. apply (f_equal text) in Hr. rewrite text_chars in Hr.
        subst d. vm_compute in He. discriminate.
      - cbn in Hall. by destruct (is_sep c). }
    unfold dirname. rewrite chars_append, rev_app_distr, lstrip_app_all by done.
    rewrite <- forallb_rev in Hall.
    assert (lstrip (λ c, negb (is_sep c)) (rev (chars d)) = rev (chars d))
      as ->.
    { destruct (rev (chars d)) as [|c l]; [done|]. cbn in *.
      by destruct (is_sep c). }
    by rewrite Hall, rev_involutive, text_chars.
  - assert (path_join d name = d +:+ "/" +:+ name) as ->.
    { unfold path_join. change (startswith name "/") with false. cbn match.
      unfold endswith_sep. rewrite Hrev, Hc.
      destruct (String.eqb_spec d "") as [He|]; [|done].
      rewrite He in Hrev. discriminate. }
    unfold dirname.
    rewrite !chars_append, !rev_app_distr, <- app_assoc,
      lstrip_app_all by done.
    rewrite Hrev. cbn. rewrite Hc. cbn.
    change (rev l ++ [c])%list with (rev (c :: l)).
    rewrite <- Hrev, rev_involutive. apply text_chars.
Qed.

(** X15.  With a stylesheet given as a URL, every engine run of a call on an
    input that has a text reads the cache file and has the directory of the
    script, not the location of the URL, as working directory. *)
Theorem downloaded_stylesheet_runs_in_script_directory
    env file url w0 t w x s w1 :
  script_dir env = dirname file →
  is_url url = true →
  init env url w0 = (inr t, w) →
  input_text env x = Some s →
  let runs := engine_runs (since w1 (final_world (transform env t x w1))) in
  runs ≠ [] ∧
  Forall (λ ev, ev = TransformToString
                       (<["resolve-external" := XdmBoolean false]> ∅)
                       (Some (script_dir env)) (LOCAL_XSL_PATH env)
                       (temp_file_path env w1)) runs.
Proof.
  intros Hd Hu Hb Hx runs. subst runs.
  assert (t = fresh_transformer (LOCAL_XSL_PATH env)) as ->.
  { destruct (init_construction env url w0); congruence. }
  rewrite <- (dirname_LOCAL_XSL_PATH env file Hd).
  destruct (transform_path env (fresh_transformer (LOCAL_XSL_PATH env)) x w1)
    as [|b e Hd'|x s' e Hx'|x s' run Hx'|x s' run Hx'|x s' run r Hx'];
    cbn in Hx; rewrite ?Hd' in Hx; try discriminate;
    observe; count_runs; split; try done; repeat constructor.
Qed.

Lemma downloaded_stylesheet_runs_in_script_directory_witness :
  let t := fresh_transformer (LOCAL_XSL_PATH Sample.env) in
  let w := (init Sample.env Sample.stylesheet_url Sample.world0).2 in
  let runs :=
    engine_runs (since w (final_world (transform Sample.env t
                                         (PyStr "<a/>") w))) in
  runs ≠ [] ∧
  Forall (λ ev, ev = TransformToString
                       (<["resolve-external" := XdmBoolean false]> ∅)
                       (Some (script_dir Sample.env))
                       (LOCAL_XSL_PATH Sample.env)
                       (temp_file_path Sample.env w)) runs.
Proof.
  apply (downloaded_stylesheet_runs_in_script_directory Sample.env
           "/srv/app/iso-19139-to-dcat-ap.py" Sample.stylesheet_url
           Sample.world0 (fresh_transformer (LOCAL_XSL_PATH Sample.env))
           (init Sample.env Sample.stylesheet_url Sample.world0).2
           (PyStr "<a/>") "<a/>"
           (init Sample.env Sample.stylesheet_url Sample.world0).2);
    vm_compute; reflexivity.
Defined.
